(** * Schwab job search agent: prompt assembly, CLI command, record store

    A shallow embedding of the logic of [src/App.js] (the React front
    end: [generateLocalPrompt], [generatePrompt], [generateCliCommand],
    [fetchJobs]) and of the back end contract the front end calls into
    (record store, search index, query service).

    JavaScript strings are modelled as [String.string]: one [ascii] per
    code unit, which is all that [substring], [replace] and template
    literals observe.  The template of [generateLocalPrompt] is pure
    ASCII. *)

From Stdlib Require Import String Ascii List Arith Bool ZArith Lia.
From Stdlib Require Import Sorting.Sorted Sorting.Permutation.
Import ListNotations.

Local Open Scope string_scope.

(* ===================================================================== *)
(** ** JavaScript values and the few built-ins the component uses        *)
(* ===================================================================== *)

Module Js.

(** Scalars that a JSON job object can carry in a field.  A property
    that is missing from the object reads as [VUndefined]. *)
Inductive value : Type :=
| VUndefined
| VNull
| VBool (b : bool)
| VString (s : string).

Inductive exn : Type :=
| TypeError.

(** Outcome of evaluating an expression: a value or a thrown error. *)
Inductive completion (A : Type) : Type :=
| Ok (a : A)
| Throw (e : exn).

Arguments Ok {A} a.
Arguments Throw {A} e.

Definition bind {A B : Type} (c : completion A) (k : A -> completion B)
  : completion B :=
  match c with
  | Ok a => k a
  | Throw e => Throw e
  end.

(** [ToString], as applied to the holes of a template literal. *)
Definition toString (v : value) : string :=
  match v with
  | VUndefined => "undefined"
  | VNull => "null"
  | VBool true => "true"
  | VBool false => "false"
  | VString s => s
  end.

(** [String.prototype.substring(start, end)]: arguments are swapped when
    [start > end] and clamped to the length of the string. *)
Definition substring_method (s : string) (start stop : nat) : string :=
  let lo := Nat.min start stop in
  let hi := Nat.max start stop in
  substring lo (hi - lo) s.

(** [v?.substring(start, end)]: optional chaining short-circuits on
    [undefined] and [null]; any other non-string receiver has no such
    method and the call throws. *)
Definition opt_substring (v : value) (start stop : nat) : completion value :=
  match v with
  | VUndefined | VNull => Ok VUndefined
  | VString s => Ok (VString (substring_method s start stop))
  | VBool _ => Throw TypeError
  end.

(** [s.replace(/c/g, r)] for a one-character pattern [c] and a
    replacement [r] without [$] patterns. *)
Fixpoint replace_all (c : ascii) (r : string) (s : string) : string :=
  match s with
  | EmptyString => EmptyString
  | String a s' =>
      if Ascii.eqb a c then r ++ replace_all c r s'
      else String a (replace_all c r s')
  end.

(** [hay.includes(needle)]. *)
Fixpoint includes (needle hay : string) : bool :=
  prefix needle hay ||
  match hay with
  | EmptyString => false
  | String _ hay' => includes needle hay'
  end.

Definition LF : ascii := "010"%char.
Definition backslash : ascii := ascii_of_nat 92.
Definition dquote : ascii := ascii_of_nat 34.

Definition nl : string := String LF EmptyString.

(** A template literal spread over several source lines: the lines joined
    by line feeds. *)
Definition lines (ls : list string) : string := String.concat nl ls.

End Js.

Notation "x <- c ;; k" := (Js.bind c (fun x => k))
  (at level 61, c at next level, right associativity).

(* ===================================================================== *)
(** ** The component state of [App]                                      *)
(* ===================================================================== *)

Module Profile.
(** The profile form: every field is the text of an input box. *)
Record t : Type := mk {
  name : string;
  email : string;
  phone : string;
  location : string;
  linkedin : string;
  github : string
}.
End Profile.

Module Job.
(** A job object as received from [GET /jobs]. *)
Record t : Type := mk {
  title : Js.value;
  req_id : Js.value;
  location : Js.value;
  pay_range : Js.value;
  tech_keywords : Js.value;
  description : Js.value
}.

(** The record type of the data model: text fields, each possibly
    absent. *)
Definition textual (v : Js.value) : bool :=
  match v with
  | Js.VBool _ => false
  | _ => true
  end.

Definition well_typed (j : t) : bool :=
  textual (title j) && textual (req_id j) && textual (location j)
  && textual (pay_range j) && textual (tech_keywords j)
  && textual (description j).
End Job.

Module App.
Import Js.

Record State : Type := mkState {
  jobs : list Job.t;
  loading : bool;
  query : string;
  selectedJob : option Job.t;
  hoveredJob : option Js.value;
  generatedPrompt : string;
  showPromptSection : bool;
  copied : bool;
  profile : Profile.t
}.

Definition default_profile : Profile.t :=
  Profile.mk "Scott D. Weeden" "scott.weeden@email.com" "(555) 123-4567"
             "Portland, OR" "linkedin.com/in/scottweeden"
             "github.com/scottweeden".

Definition initial : State :=
  mkState [] true "" None None "" false false default_profile.

Definition setGeneratedPrompt (p : string) (st : State) : State :=
  mkState (jobs st) (loading st) (query st) (selectedJob st) (hoveredJob st)
          p (showPromptSection st) (copied st) (profile st).

Definition setShowPromptSection (b : bool) (st : State) : State :=
  mkState (jobs st) (loading st) (query st) (selectedJob st) (hoveredJob st)
          (generatedPrompt st) b (copied st) (profile st).

Definition setJobs (js : list Job.t) (st : State) : State :=
  mkState js (loading st) (query st) (selectedJob st) (hoveredJob st)
          (generatedPrompt st) (showPromptSection st) (copied st)
          (profile st).

Definition setLoading (b : bool) (st : State) : State :=
  mkState (jobs st) b (query st) (selectedJob st) (hoveredJob st)
          (generatedPrompt st) (showPromptSection st) (copied st)
          (profile st).

Definition setSelectedJob (j : option Job.t) (st : State) : State :=
  mkState (jobs st) (loading st) (query st) j (hoveredJob st)
          (generatedPrompt st) (showPromptSection st) (copied st)
          (profile st).

(** *** [generateLocalPrompt] (App.js, lines 381-453) *)

(** The static lines that close the template, from
    [EMPLOYMENT HISTORY] to the end. *)
Definition employment_history_lines : list string := [
  "EMPLOYMENT HISTORY (verified from W2 records):";
  "";
  "**Fisher Asset Management LLC** | Camas, WA (Remote)";
  "Senior Software Engineer (2020 - 2021)";
  "- Compensation: $29K - $154K annually";
  "- Financial technology solutions and asset management platform development";
  "- Full-stack development with modern technologies";
  "";
  "**Jabil Inc** | St. Petersburg, FL / Portland, OR";
  "Software Engineer (2016 - 2020)  ";
  "- Compensation: $70K - $113K annually";
  "- Electronics manufacturing systems development";
  "- Enterprise software engineering and process automation";
  "- Led technical initiatives and mentored junior developers";
  "";
  "**TekSystems, Inc.** | Saint Petersburg, FL";
  "Contract Software Engineer (2014 - 2016)";
  "- Compensation: $85K - $94K annually";
  "- Enterprise consulting engagements";
  "- Multiple client projects across various industries";
  "";
  "**ExecuSource LLC** | Portland, OR";
  "Contract Engineer (2023)";
  "- Technical consulting engagements";
  ""
].

Definition resume_requirements_lines : list string := [
  "RESUME REQUIREMENTS:";
  "";
  "1. **LaTeX Design:**";
  "   - Create a unique, modern two-column or sidebar layout";
  "   - Use TikZ for subtle visual elements";
  "   - Apply color accents (Schwab blue #0070CD if targeting Schwab)";
  "   - Ensure ATS-compatibility (parseable text)";
  "   - Maximum one page";
  "";
  "2. **Content:**";
  "   - Professional summary highlighting 10+ years experience";
  "   - Skills section matching target job requirements";
  "   - Quantifiable achievements where possible";
  "   - Education and certifications section";
  "";
  "3. **Technical Requirements:**";
  "   - Complete, compilable LaTeX document";
  "   - Use standard TexLive packages only";
  "   - Document must compile with pdflatex";
  "";
  "After generating the LaTeX code:";
  "1. Save as resume.tex";
  "2. Run: pdflatex resume.tex";
  "3. Fix any errors and recompile until successful";
  "";
  "Generate the complete LaTeX source code now."
].

(** [const jobInfo = selectedJob ? `...` : '';] *)
Definition jobInfo (selectedJob : option Job.t) : completion string :=
  match selectedJob with
  | Some job =>
      d <- opt_substring (Job.description job) 0 500 ;;
      Ok (lines [
        "";
        "TARGET JOB:";
        "- Title: " ++ toString (Job.title job);
        "- Requisition ID: " ++ toString (Job.req_id job);
        "- Location: " ++ toString (Job.location job);
        "- Pay Range: " ++ toString (Job.pay_range job);
        "- Technologies: " ++ toString (Job.tech_keywords job);
        "- Description: " ++ toString d ++ "...";
        ""
      ])
  | None => Ok ""
  end.

(** [profile.github || 'N/A']: the empty string is falsy. *)
Definition or_default (s dflt : string) : string :=
  if (s =? "")%string then dflt else s.

Definition generateLocalPrompt (st : State) : completion string :=
  info <- jobInfo (selectedJob st) ;;
  Ok (lines ([
    "You are an expert resume writer and LaTeX document designer. Create a professional, ATS-optimized resume.";
    "";
    "CANDIDATE PROFILE:";
    "- Name: " ++ Profile.name (profile st);
    "- Location: " ++ Profile.location (profile st);
    "- Email: " ++ Profile.email (profile st);
    "- Phone: " ++ Profile.phone (profile st);
    "- LinkedIn: " ++ Profile.linkedin (profile st);
    "- GitHub: " ++ or_default (Profile.github (profile st)) "N/A";
    info
  ] ++ employment_history_lines ++ resume_requirements_lines)).

(** *** The HTTP boundary ([axios]) *)

Inductive axios_error : Type :=
| NetworkError
| HttpError (status : nat).

(** A settled promise of [axios.get] / [axios.post]. *)
Inductive response (A : Type) : Type :=
| Resolved (data : A)
| Rejected (error : axios_error).

Arguments Resolved {A} data.
Arguments Rejected {A} error.

(** [console.error(msg, error)]. *)
Inductive log_entry : Type :=
| ConsoleError (msg : string) (error : axios_error).

(** Body of [POST /generate-prompt]. *)
Record prompt_request : Type := mkRequest {
  job_id : Js.value;
  request_profile : Profile.t
}.

(** [selectedJob?.req_id] *)
Definition selected_req_id (st : State) : Js.value :=
  match selectedJob st with
  | Some job => Job.req_id job
  | None => VUndefined
  end.

(** *** [generatePrompt] (App.js, lines 363-378)

    [post] is the server as seen through [axios.post].  The result pairs
    the completion of the handler (the next state, or the error thrown
    inside the [catch] block) with what was written to the console. *)
Definition generatePrompt (post : prompt_request -> response string)
    (st : State) : completion State * list log_entry :=
  match post (mkRequest (selected_req_id st) (profile st)) with
  | Resolved prompt =>
      (Ok (setShowPromptSection true (setGeneratedPrompt prompt st)), [])
  | Rejected error =>
      (localPrompt <- generateLocalPrompt st ;;
       Ok (setShowPromptSection true (setGeneratedPrompt localPrompt st)),
       [ConsoleError "Error generating prompt:" error])
  end.

(** *** [generateCliCommand] (App.js, lines 467-475) *)

Definition bs : string := String backslash EmptyString.
Definition dq : string := String dquote EmptyString.

(** The three chained [replace] calls. *)
Definition escape (prompt : string) : string :=
  replace_all LF (bs ++ "n")
    (replace_all dquote (bs ++ dq)
      (replace_all backslash (bs ++ bs) prompt)).

Definition generateCliCommand (st : State) : string :=
  let escapedPrompt :=
    substring_method (escape (generatedPrompt st)) 0 500 ++ "..." in
  "claude -p " ++ dq ++ escapedPrompt ++ dq.

(** *** [fetchJobs] (App.js, lines 334-347)

    [get] is the server as seen through [axios.get]; its argument is the
    [q] parameter, absent when [searchQuery] is falsy. *)
Definition fetchJobs (get : option string -> response (list Job.t))
    (searchQuery : string) (st : State) : State * list log_entry :=
  let st1 := setLoading true st in
  match get (if (searchQuery =? "")%string then None else Some searchQuery) with
  | Resolved data => (setLoading false (setJobs data st1), [])
  | Rejected error =>
      (setLoading false (setJobs [] st1),
       [ConsoleError "Error fetching jobs:" error])
  end.

End App.

(* ===================================================================== *)
(** ** The back end contract: record store, search index, query service  *)
(* ===================================================================== *)

Module Backend.

(** Modelled from the spec: the back end ([crawler.py]) is not among the
    sources.  [JobRecord] is the record of section 3; [pay_range] and
    [description] are optional, [tech_keywords] is the ordered sequence
    of keywords, [ingested_at] the time stamp set at insert time. *)
Record JobRecord : Type := mkJob {
  req_id : string;
  title : string;
  location : string;
  pay_range : option string;
  tech_keywords : list string;
  description : option string;
  ingested_at : Z
}.

(** Modelled from the spec: the error taxonomy of section 7 (the back
    end is not among the sources). *)
Inductive error : Type :=
| ValidationError
| NotFound
| StoreUnavailable.

Inductive result (A : Type) : Type :=
| Success (a : A)
| Failure (e : error).

Arguments Success {A} a.
Arguments Failure {A} e.

(** Modelled from the spec: the record store of section 4.1 (missing
    from the sources), a table of records kept in insertion order. *)
Definition Store : Type := list JobRecord.

Definition empty : Store := [].

(** Modelled from the spec: a record is rejected "if [req_id] or [title]
    is missing or empty" (the store is not among the sources). *)
Definition valid (r : JobRecord) : bool :=
  negb (req_id r =? "")%string && negb (title r =? "")%string.

(** Modelled from the spec: "inserts a new record or replaces the
    existing one with the same [req_id]" (store code missing). *)
Fixpoint put (r : JobRecord) (s : Store) : Store :=
  match s with
  | [] => [r]
  | x :: s' =>
      if (req_id x =? req_id r)%string then r :: s' else x :: put r s'
  end.

(** Modelled from the spec: [upsert(record)] of section 4.1, failing
    with [ValidationError] on an invalid record (store code missing). *)
Definition upsert (r : JobRecord) (s : Store) : result Store :=
  if valid r then Success (put r s) else Failure ValidationError.

(** Modelled from the spec: [get(req_id)] "returns the record or signals
    [NotFound]" (store code missing). *)
Definition get (id : string) (s : Store) : result JobRecord :=
  match find (fun x => (req_id x =? id)%string) s with
  | Some r => Success r
  | None => Failure NotFound
  end.

(** Modelled from the spec: [all()], every record in insertion order
    (store code missing). *)
Definition all (s : Store) : list JobRecord := s.

(** Modelled from the spec: [count()], the total record count (store
    code missing). *)
Definition count (s : Store) : nat := List.length s.

(** *** Search index (section 4.2) *)

Section Sort.
Context {A : Type} (leb : A -> A -> bool).

Fixpoint insert (x : A) (l : list A) : list A :=
  match l with
  | [] => [x]
  | y :: l' => if leb x y then x :: l else y :: insert x l'
  end.

Fixpoint sort (l : list A) : list A :=
  match l with
  | [] => []
  | x :: l' => insert x (sort l')
  end.
End Sort.

Definition lower_ascii (c : ascii) : ascii :=
  let n := nat_of_ascii c in
  if ((65 <=? n) && (n <=? 90))%nat then ascii_of_nat (n + 32) else c.

Fixpoint lower (s : string) : string :=
  match s with
  | EmptyString => EmptyString
  | String c s' => String (lower_ascii c) (lower s')
  end.

Definition is_space (c : ascii) : bool :=
  let n := nat_of_ascii c in
  ((n =? 32) || (n =? 9) || (n =? 10) || (n =? 13))%nat.

Fixpoint words_from (word : string) (s : string) : list string :=
  match s with
  | EmptyString => if (word =? "")%string then [] else [word]
  | String c s' =>
      if is_space c then
        if (word =? "")%string then words_from "" s'
        else word :: words_from "" s'
      else words_from (word ++ String c EmptyString) s'
  end.

(** Modelled from the spec: the space-separated terms of a query after
    trimming (search code missing). *)
Definition terms (query : string) : list string :=
  words_from "" (lower query).

(** Modelled from the spec: "the concatenation of [title], [location],
    [tech_keywords], [description]" (search code missing). *)
Definition blob (r : JobRecord) : string :=
  String.concat " " [
    title r; location r; String.concat "," (tech_keywords r);
    match description r with Some d => d | None => "" end
  ].

(** Modelled from the spec: a term matches when it "appears as a
    substring of the concatenated blob, OR [...] matches any single
    comma-separated token in [tech_keywords] exactly", ignoring case
    (search code missing). *)
Definition term_matches (r : JobRecord) (t : string) : bool :=
  Js.includes t (lower (blob r))
  || existsb (fun k => (lower k =? t)%string) (tech_keywords r).

(** Modelled from the spec: implicit AND over the terms (search code
    missing). *)
Definition matches (ts : list string) (r : JobRecord) : bool :=
  forallb (term_matches r) ts.

Definition title_matches (ts : list string) (r : JobRecord) : bool :=
  forallb (fun t => Js.includes t (lower (title r))) ts.

(** Modelled from the spec: "most-recently-ingested first, tie-break by
    [req_id] ascending" (search code missing). *)
Definition recent_first (a b : JobRecord) : bool :=
  (ingested_at b <? ingested_at a)%Z
  || ((ingested_at a =? ingested_at b)%Z && (req_id a <=? req_id b)%string).

(** Modelled from the spec: "records matching on [title] rank before
    records matching only elsewhere; within equal rank,
    most-recently-ingested first" (search code missing). *)
Definition ranked (ts : list string) (a b : JobRecord) : bool :=
  match title_matches ts a, title_matches ts b with
  | true, false => true
  | false, true => false
  | _, _ => recent_first a b
  end.

(** Modelled from the spec: [search(query)] of section 4.2 (search code
    missing).  The empty query returns all records, most recent
    first. *)
Definition search (query : string) (s : Store) : list JobRecord :=
  match terms query with
  | [] => sort recent_first (all s)
  | ts => sort (ranked ts) (filter (matches ts) (all s))
  end.

(** *** Query service (section 4.5) *)

(** Modelled from the spec: [listJobs(query?)] (service code missing). *)
Definition listJobs (query : option string) (s : Store) : list JobRecord :=
  search (match query with Some q => q | None => "" end) s.

(** Modelled from the spec: [getJob(req_id) -> JobRecord | NotFound]
    (service code missing). *)
Definition getJob (id : string) (s : Store) : result JobRecord := get id s.

(** Modelled from the spec: [generatePrompt(req_id?, profile)] "resolves
    [req_id] via [getJob] when provided [...] and delegates to the Prompt
    Assembler" (service code missing); the assembler of the back end is
    left as the parameter [assemble]. *)
Definition generatePrompt
    (assemble : Profile.t -> option JobRecord -> string)
    (s : Store) (id : option string) (profile : Profile.t)
  : result string :=
  match id with
  | None => Success (assemble profile None)
  | Some i =>
      match getJob i s with
      | Success r => Success (assemble profile (Some r))
      | Failure e => Failure e
      end
  end.

End Backend.

(* ===================================================================== *)
(** ** The HTTP layer between the two                                    *)
(* ===================================================================== *)

Module Http.
Import Js.

(** Modelled from the spec: the JSON form of a record on the wire
    (section 6; the HTTP layer is not among the sources). *)
Definition optional (o : option string) : value :=
  match o with
  | Some s => VString s
  | None => VNull
  end.

Definition to_json (r : Backend.JobRecord) : Job.t :=
  Job.mk (VString (Backend.title r)) (VString (Backend.req_id r))
         (VString (Backend.location r)) (optional (Backend.pay_range r))
         (VString (String.concat "," (Backend.tech_keywords r)))
         (optional (Backend.description r)).

(** Modelled from the spec: [NotFound] is the "404-equivalent"
    (section 6; the HTTP layer is not among the sources). *)
Definition status_of (e : Backend.error) : nat :=
  match e with
  | Backend.ValidationError => 400
  | Backend.NotFound => 404
  | Backend.StoreUnavailable => 503
  end.

Definition job_id_of (v : value) : option string :=
  match v with
  | VString s => Some s
  | _ => None
  end.

(** Modelled from the spec: [GET /jobs] served from a store. *)
Definition get_jobs (s : Backend.Store) (q : option string)
  : App.response (list Job.t) :=
  App.Resolved (map to_json (Backend.listJobs q s)).

(** Modelled from the spec: [POST /generate-prompt] served from a
    store. *)
Definition post_generate_prompt
    (assemble : Profile.t -> option Backend.JobRecord -> string)
    (s : Backend.Store) (rq : App.prompt_request) : App.response string :=
  match Backend.generatePrompt assemble s (job_id_of (App.job_id rq))
          (App.request_profile rq) with
  | Backend.Success p => App.Resolved p
  | Backend.Failure e => App.Rejected (App.HttpError (status_of e))
  end.

End Http.

(* ===================================================================== *)
(** ** The blocks of the prompt, and the rules as the specification
       words them                                                        *)
(* ===================================================================== *)

Module Blocks.
Import Js.

Definition opening_line : string :=
  "You are an expert resume writer and LaTeX document designer. Create a professional, ATS-optimized resume.".

(** The six labelled lines under [CANDIDATE PROFILE:]. *)
Definition profile_lines (p : Profile.t) : list string := [
  "- Name: " ++ Profile.name p;
  "- Location: " ++ Profile.location p;
  "- Email: " ++ Profile.email p;
  "- Phone: " ++ Profile.phone p;
  "- LinkedIn: " ++ Profile.linkedin p;
  "- GitHub: " ++ App.or_default (Profile.github p) "N/A"
].

Definition profile_block (p : Profile.t) : string :=
  lines ("CANDIDATE PROFILE:" :: profile_lines p).

(** The target-job block for a job whose description renders as [d]. *)
Definition target_job_block (job : Job.t) (d : string) : string :=
  lines [
    "";
    "TARGET JOB:";
    "- Title: " ++ toString (Job.title job);
    "- Requisition ID: " ++ toString (Job.req_id job);
    "- Location: " ++ toString (Job.location job);
    "- Pay Range: " ++ toString (Job.pay_range job);
    "- Technologies: " ++ toString (Job.tech_keywords job);
    "- Description: " ++ d;
    ""
  ].

Definition employment_history : string := lines App.employment_history_lines.

Definition resume_requirements : string :=
  lines App.resume_requirements_lines.

(** Everything after the job block: a closed string. *)
Definition boilerplate : string :=
  employment_history ++ nl ++ resume_requirements.

(** The text the component prints for the description of a job when the
    call does not throw: a string is cut at 500 characters, an absent
    description ([undefined] or [null]) reads [undefined]; the ellipsis
    follows in both cases. *)
Definition rendered_description (v : value) : string :=
  match v with
  | VString s => substring 0 500 s ++ "..."
  | _ => "undefined..."
  end.

Definition job_typed (selectedJob : option Job.t) : bool :=
  match selectedJob with
  | Some job => Job.well_typed job
  | None => true
  end.

(** The heading and the labels that only the target-job block uses
    ([- Location: ] is also a label of the profile block). *)
Definition job_labels : list string := [
  "TARGET JOB:"; "- Title: "; "- Requisition ID: "; "- Pay Range: ";
  "- Technologies: "; "- Description: "
].

(** A text without line feed, such as the value of a one-line input
    box. *)
Fixpoint single_line (s : string) : bool :=
  match s with
  | EmptyString => true
  | String c s' => negb (Ascii.eqb c LF) && single_line s'
  end.

Definition single_line_profile (p : Profile.t) : bool :=
  single_line (Profile.name p) && single_line (Profile.location p)
  && single_line (Profile.email p) && single_line (Profile.phone p)
  && single_line (Profile.linkedin p) && single_line (Profile.github p).

(** In an escaped prompt every double quote follows a backslash.
    [guarded prev s] checks that property of [s], where [prev] tells
    whether the character before [s] is a backslash. *)
Fixpoint guarded (prev : bool) (s : string) : bool :=
  match s with
  | EmptyString => true
  | String c s' =>
      (if Ascii.eqb c dquote then prev else true)
      && guarded (Ascii.eqb c backslash) s'
  end.

End Blocks.

Module Spec.

(** The truncation rule in the words of the specification:
    "if [len(description) > 500], output [description[:500] + "..."];
    otherwise output [description] unchanged". *)
Definition truncate (description : string) : string :=
  if (500 <? String.length description)%nat
  then substring 0 500 description ++ "..."
  else description.

(** The profile block in the words of the specification: "every
    non-empty profile field under a stable label". *)
Definition labelled (label value : string) : list string :=
  if (value =? "")%string then [] else [label ++ value].

Definition profile_lines (p : Profile.t) : list string :=
  labelled "- Name: " (Profile.name p)
  ++ labelled "- Location: " (Profile.location p)
  ++ labelled "- Email: " (Profile.email p)
  ++ labelled "- Phone: " (Profile.phone p)
  ++ labelled "- LinkedIn: " (Profile.linkedin p)
  ++ labelled "- GitHub: " (Profile.github p).

End Spec.

(* ===================================================================== *)
(** ** Sample inputs                                                     *)
(* ===================================================================== *)

Module Samples.
Import Js.

Fixpoint replicate (n : nat) (c : ascii) : string :=
  match n with
  | O => EmptyString
  | S n' => String c (replicate n' c)
  end.

(** A posting with a three-character description. *)
Definition job_short : Job.t :=
  Job.mk (VString "Software Engineer") (VString "2025-0001")
         (VString "Austin, TX") (VString "$90K-$120K")
         (VString "java,python") (VString "abc").

(** A posting whose description has 501 characters. *)
Definition job_long : Job.t :=
  Job.mk (VString "Software Engineer Lead") (VString "2025-0002")
         (VString "Portland, OR") VNull
         (VString "java,aws") (VString (replicate 500 "a" ++ "b")).

(** A posting whose description is not text. *)
Definition job_ill_typed : Job.t :=
  Job.mk (VString "Software Engineer") (VString "2025-0003")
         (VString "Austin, TX") VNull (VString "java") (VBool true).

Definition st_short : App.State :=
  App.setSelectedJob (Some job_short) App.initial.

Definition st_long : App.State :=
  App.setSelectedJob (Some job_long) App.initial.

Definition st_ill_typed : App.State :=
  App.setSelectedJob (Some job_ill_typed) App.initial.

(** The user cleared the e-mail and GitHub boxes of the profile form. *)
Definition st_blank_fields : App.State :=
  App.mkState [] false "" None None "" false false
    (Profile.mk "Scott D. Weeden" "" "(555) 123-4567" "Portland, OR"
                "linkedin.com/in/scottweeden" "").

(** A prompt of 503 characters: 500 letters and three dots. *)
Definition dotted_prompt : string := replicate 500 "a" ++ "...".

Definition st_dotted : App.State :=
  App.setGeneratedPrompt dotted_prompt App.initial.

Definition st_quoted : App.State :=
  App.setGeneratedPrompt
    ("say " ++ App.dq ++ "hi" ++ App.dq ++ nl ++ "a" ++ App.bs ++ "b")
    App.initial.

(** A server that is down, and one that answers. *)
Definition server_down : App.prompt_request -> App.response string :=
  fun _ => App.Rejected App.NetworkError.

Definition r1 : Backend.JobRecord :=
  Backend.mkJob "2025-0001" "Software Engineer" "Austin, TX"
                (Some "$90K-$120K") ["java"; "python"] (Some "abc") 10.

Definition r1' : Backend.JobRecord :=
  Backend.mkJob "2025-0001" "Software Engineer Lead" "Portland, OR"
                None ["aws"] None 20.

Definition r2 : Backend.JobRecord :=
  Backend.mkJob "2025-0002" "Data Engineer" "Denver, CO"
                None ["sql"; "Java"] (Some "pipelines") 20.

Definition r3 : Backend.JobRecord :=
  Backend.mkJob "2025-0003" "Lead Engineer" "Austin, TX"
                None ["go"] None 5.

Definition store3 : Backend.Store := [r1; r3; r2].

Definition echo_assembler (p : Profile.t) (j : option Backend.JobRecord)
  : string :=
  match j with
  | Some r => Profile.name p ++ " / " ++ Backend.title r
  | None => Profile.name p
  end.

End Samples.

(* ===================================================================== *)
(** ** What the component renders: job cards, listing, prompt panel      *)
(* ===================================================================== *)

Module View.
Import Js App.

(** [a === b] on the scalars of the model. *)
Definition strict_eq (a b : value) : bool :=
  match a, b with
  | VUndefined, VUndefined => true
  | VNull, VNull => true
  | VBool x, VBool y => Bool.eqb x y
  | VString x, VString y => (x =? y)%string
  | _, _ => false
  end.

(** [ToBoolean]: what [&&], [||] and [!] test. *)
Definition truthy (v : value) : bool :=
  match v with
  | VUndefined | VNull => false
  | VBool b => b
  | VString s => negb (s =? "")%string
  end.

(** The text React shows for a child [{v}]: a string as it is, nothing
    for [undefined], [null] and booleans. *)
Definition render_child (v : value) : string :=
  match v with
  | VString s => s
  | _ => ""
  end.

(** [s.split(sep)] for a one-character separator. *)
Fixpoint split (sep : ascii) (s : string) : list string :=
  match s with
  | EmptyString => [""]
  | String c s' =>
      if Ascii.eqb c sep then "" :: split sep s'
      else match split sep s' with
           | w :: ws => String c w :: ws
           | [] => [String c EmptyString]
           end
  end.

(** White space as [trim] sees it, among the code units below 256: tab,
    line feed, vertical tab, form feed, carriage return, space and the
    no-break space. *)
Definition is_js_space (c : ascii) : bool :=
  let n := nat_of_ascii c in
  ((n =? 9) || (n =? 10) || (n =? 11) || (n =? 12) || (n =? 13)
   || (n =? 32) || (n =? 160))%nat.

Fixpoint trim_start (s : string) : string :=
  match s with
  | EmptyString => EmptyString
  | String c s' => if is_js_space c then trim_start s' else s
  end.

Fixpoint trim_end (s : string) : string :=
  match s with
  | EmptyString => EmptyString
  | String c s' =>
      match trim_end s' with
      | EmptyString => if is_js_space c then EmptyString
                       else String c EmptyString
      | t => String c t
      end
  end.

(** [s.trim()] *)
Definition trim (s : string) : string := trim_end (trim_start s).

(** [job.tech_keywords.split(',').slice(0, 6).map(tech => tech.trim())] *)
Definition tags_of (keywords : string) : list string :=
  map trim (firstn 6 (split "," keywords)).

(** [job.tech_keywords && (...)]: no tag row for a falsy value; a truthy
    value that is not a string has no [split] method. *)
Definition tech_tags_of (v : value) : completion (option (list string)) :=
  if truthy v then
    match v with
    | VString s => Ok (Some (tags_of s))
    | _ => Throw TypeError
    end
  else Ok None.

(** [setHoveredJob] *)
Definition setHoveredJob (h : option value) (st : State) : State :=
  mkState (jobs st) (loading st) (query st) (selectedJob st) h
          (generatedPrompt st) (showPromptSection st) (copied st)
          (profile st).

(** [const isSelected = selectedJob?.req_id === job.req_id;] *)
Definition is_selected (st : State) (job : Job.t) : bool :=
  strict_eq (selected_req_id st) (Job.req_id job).

(** [const isHovered = hoveredJob === job.req_id;] where the state
    [None] is [null]. *)
Definition is_hovered (st : State) (job : Job.t) : bool :=
  strict_eq (match hoveredJob st with Some v => v | None => VNull end)
            (Job.req_id job).

(** The card of a job: the two flags and the texts put in the card (the
    fixed decorations and the styles are left out). *)
Record Card : Type := mkCard {
  isSelected : bool;
  isHovered : bool;
  card_title : string;
  pay_badge : string;
  location_badge : string;
  id_badge : string;
  description_preview : string;
  tech_tags : option (list string);
  generate_button : bool
}.

(** [renderJobCard] (App.js, lines 478-537). *)
Definition renderJobCard (st : State) (job : Job.t) : completion Card :=
  d <- opt_substring (Job.description job) 0 200 ;;
  tags <- tech_tags_of (Job.tech_keywords job) ;;
  Ok (mkCard (is_selected st job) (is_hovered st job)
        (render_child (Job.title job))
        (render_child (if truthy (Job.pay_range job) then Job.pay_range job
                       else VString "Salary TBD"))
        (render_child (Job.location job))
        ("#" ++ render_child (Job.req_id job))
        (render_child d ++ "...")
        tags
        (is_selected st job)).

(** The handlers of a card: [onClick], [onMouseEnter], [onMouseLeave]. *)
Definition click_card (job : Job.t) (st : State) : State :=
  setSelectedJob (if is_selected st job then None else Some job) st.

Definition mouse_enter (job : Job.t) (st : State) : State :=
  setHoveredJob (Some (Job.req_id job)) st.

Definition mouse_leave (st : State) : State := setHoveredJob None st.

(** The buttons of the prompt panel: [Clear] and the show/hide toggle. *)
Definition clear_prompt (st : State) : State := setGeneratedPrompt "" st.

Definition toggle_prompt_section (st : State) : State :=
  setShowPromptSection (negb (showPromptSection st)) st.

(** [jobs.map(renderJobCard)]: the first card that throws aborts the
    rendering. *)
Fixpoint render_cards (st : State) (js : list Job.t)
  : completion (list Card) :=
  match js with
  | [] => Ok []
  | job :: js' =>
      card <- renderJobCard st job ;;
      cards <- render_cards st js' ;;
      Ok (card :: cards)
  end.

(** The job listing at the bottom of the page (App.js, lines 671-685):
    [loading ? ... : jobs.length === 0 ? ... : jobs.map(renderJobCard)]. *)
Inductive listing : Type :=
| LoadingJobs
| NoJobsFound
| JobGrid (cards : list Card).

Definition job_listing (st : State) : completion listing :=
  if loading st then Ok LoadingJobs
  else if (List.length (jobs st) =? 0)%nat then Ok NoJobsFound
  else cards <- render_cards st (jobs st) ;; Ok (JobGrid cards).

(** [{showPromptSection && ( ... {generatedPrompt && ( <pre> ... )} )}]:
    the prompt shown in the panel, if any. *)
Definition prompt_output (st : State) : option string :=
  if showPromptSection st && negb (generatedPrompt st =? "")%string
  then Some (generatedPrompt st)
  else None.

(** [disabled={!selectedJob}] on the button of the panel. *)
Definition generate_disabled (st : State) : bool :=
  match selectedJob st with
  | Some _ => false
  | None => true
  end.


End View.

(* ===================================================================== *)
(** ** [fetchJobs] around its [await]                                    *)
(* ===================================================================== *)

Module Fetching.
Import Js App.

(** [params: searchQuery ? { q: searchQuery } : {}] *)
Definition request_param (searchQuery : string) : option string :=
  if (searchQuery =? "")%string then None else Some searchQuery.

(** What [fetchJobs] does before it suspends at [await axios.get]: the
    loading flag goes on and the request is sent. *)
Definition fetch_begin (st : State) : State := setLoading true st.

(** What [fetchJobs] does when the answer [r] arrives, on the state of
    that moment: the [try] block continues or the [catch] block runs,
    then the loading flag goes off. *)
Definition fetch_resume (r : response (list Job.t)) (st : State)
  : State * list log_entry :=
  match r with
  | Resolved data => (setLoading false (setJobs data st), [])
  | Rejected error =>
      (setLoading false (setJobs [] st),
       [ConsoleError "Error fetching jobs:" error])
  end.

(** The list an answer puts on the page. *)
Definition answered_jobs (r : response (list Job.t)) : list Job.t :=
  match r with
  | Resolved data => data
  | Rejected _ => []
  end.

End Fetching.

(* ===================================================================== *)
(** ** Reading the escaping of the CLI command character by character    *)
(* ===================================================================== *)

Module Escaping.
Import Js App.

(** What becomes of one character of the prompt. *)
Definition escape_char (c : ascii) : string :=
  if Ascii.eqb c backslash then bs ++ bs
  else if Ascii.eqb c dquote then bs ++ dq
  else if Ascii.eqb c LF then bs ++ "n"
  else String c EmptyString.

Fixpoint escape_each (s : string) : string :=
  match s with
  | EmptyString => EmptyString
  | String c s' => escape_char c ++ escape_each s'
  end.

(** Reading an escaped text back. *)
Fixpoint unescape (s : string) : string :=
  match s with
  | EmptyString => EmptyString
  | String c s' =>
      if Ascii.eqb c backslash then
        match s' with
        | EmptyString => String c EmptyString
        | String d s'' =>
            String (if Ascii.eqb d "n" then LF else d) (unescape s'')
        end
      else String c (unescape s')
  end.

Definition special (c : ascii) : bool :=
  Ascii.eqb c backslash || Ascii.eqb c dquote || Ascii.eqb c LF.

Fixpoint count_special (s : string) : nat :=
  match s with
  | EmptyString => 0
  | String c s' => (if special c then 1 else 0) + count_special s'
  end.

Fixpoint count_char (c : ascii) (s : string) : nat :=
  match s with
  | EmptyString => 0
  | String a s' => (if Ascii.eqb a c then 1 else 0) + count_char c s'
  end.

End Escaping.

(* ===================================================================== *)
(** ** More sample inputs                                                *)
(* ===================================================================== *)

Module MoreSamples.
Import Js.

(** A posting without pay range and without description. *)
Definition job_no_description : Job.t :=
  Job.mk (VString "QA Engineer") (VString "2025-0004") (VString "Remote")
         VUndefined (VString " java , sql,,aws ") VNull.

(** A posting that came without requisition id. *)
Definition job_no_id : Job.t :=
  Job.mk (VString "Intern") VUndefined (VString "Austin, TX") VNull VNull
         (VString "x").

(** The list is loaded and shows two postings; nothing is selected. *)
Definition st_listed : App.State :=
  App.mkState [Samples.job_short; job_no_description] false "" None None ""
              false false App.default_profile.

Definition st_listed_ill_typed : App.State :=
  App.mkState [Samples.job_short; Samples.job_ill_typed] false "" None None
              "" false false App.default_profile.

Definition server_ok : App.prompt_request -> App.response string :=
  fun _ => App.Resolved "PROMPT".

Definition server_empty : App.prompt_request -> App.response string :=
  fun _ => App.Resolved "".

Definition jobs_down : option string -> App.response (list Job.t) :=
  fun _ => App.Rejected (App.HttpError 500).

Definition jobs_none : option string -> App.response (list Job.t) :=
  fun _ => App.Resolved [].

Definition jobs_two : option string -> App.response (list Job.t) :=
  fun _ => App.Resolved [Samples.job_short; job_no_description].



End MoreSamples.

(* ===================================================================== *)
(** ** Facts about strings                                               *)
(* ===================================================================== *)

Section StringFacts.
Import Js.

Lemma app_assoc_s (a b c : string) : (a ++ b) ++ c = a ++ b ++ c.
Proof. induction a as [|x a IH]; simpl; [reflexivity | now rewrite IH]. Qed.

Lemma app_empty_r (a : string) : a ++ "" = a.
Proof. induction a as [|x a IH]; simpl; [reflexivity | now rewrite IH]. Qed.

Lemma length_app (a b : string) :
  String.length (a ++ b) = String.length a + String.length b.
Proof. induction a as [|x a IH]; simpl; [reflexivity | now rewrite IH]. Qed.

Lemma app_inv_head_s (a b c : string) : a ++ b = a ++ c -> b = c.
Proof.
  induction a as [|x a IH]; simpl; intros H; [exact H|].
  injection H as H. now apply IH.
Qed.

(** [substring 0 n] keeps the first [n] characters. *)
Lemma substring_0_length (n : nat) (s : string) :
  String.length (substring 0 n s) = Nat.min n (String.length s).
Proof.
  revert s; induction n as [|n IH]; intros [|c s]; simpl; auto.
Qed.

Lemma substring_0_all (n : nat) (s : string) :
  String.length s <= n -> substring 0 n s = s.
Proof.
  revert s; induction n as [|n IH]; intros [|c s]; simpl; intros H;
    try reflexivity; try lia.
  f_equal. apply IH. lia.
Qed.

Lemma substring_0_split (n : nat) (s : string) :
  s = substring 0 n s ++ substring n (String.length s - n) s.
Proof.
  revert s; induction n as [|n IH]; intros [|c s]; simpl; try reflexivity.
  - f_equal. symmetry. apply substring_0_all. lia.
  - f_equal. apply IH.
Qed.

Lemma substring_method_0 (s : string) (n : nat) :
  substring_method s 0 n = substring 0 n s.
Proof.
  unfold substring_method.
  rewrite Nat.min_0_l, Nat.max_0_l, Nat.sub_0_r. reflexivity.
Qed.

(** Joining lines. *)
Lemma lines_cons (x y : string) (l : list string) :
  lines (x :: y :: l) = x ++ nl ++ lines (y :: l).
Proof. reflexivity. Qed.

Lemma lines_app (l1 l2 : list string) :
  l1 <> [] -> l2 <> [] ->
  lines (l1 ++ l2) = lines l1 ++ nl ++ lines l2.
Proof.
  intros H1 H2. induction l1 as [|x l1 IH]; [congruence|].
  destruct l1 as [|y l1].
  - destruct l2 as [|z l2]; [congruence|]. reflexivity.
  - change ((x :: y :: l1) ++ l2)%list with (x :: y :: (l1 ++ l2))%list.
    rewrite !lines_cons.
    change (y :: l1 ++ l2)%list with ((y :: l1) ++ l2)%list.
    rewrite IH by discriminate.
    now rewrite !app_assoc_s.
Qed.

(** [includes] finds every occurrence and nothing else. *)
Lemma prefix_app (n post : string) : prefix n (n ++ post) = true.
Proof.
  induction n as [|c n IH]; simpl; [now destruct post|].
  destruct (ascii_dec c c); [exact IH | congruence].
Qed.

Lemma prefix_inv (n h : string) :
  prefix n h = true -> exists post, h = n ++ post.
Proof.
  revert h; induction n as [|c n IH]; intros h H.
  - now exists h.
  - destruct h as [|d h]; simpl in H; [discriminate|].
    destruct (ascii_dec c d) as [->|]; [|discriminate].
    destruct (IH _ H) as [post ->]. now exists post.
Qed.

Lemma includes_prefix (n h : string) :
  prefix n h = true -> includes n h = true.
Proof. intros H. destruct h; cbn [includes]; rewrite H; reflexivity. Qed.

Lemma includes_intro (pre n post : string) :
  includes n (pre ++ n ++ post) = true.
Proof.
  induction pre as [|c pre IH].
  - change ("" ++ n ++ post) with (n ++ post).
    apply includes_prefix, prefix_app.
  - cbn [append includes]. rewrite IH. apply orb_true_r.
Qed.

Lemma includes_inv (n h : string) :
  includes n h = true -> exists pre post, h = pre ++ n ++ post.
Proof.
  induction h as [|c h IH]; cbn [includes]; intros H.
  - rewrite orb_false_r in H. apply prefix_inv in H as [post ->].
    now exists "", post.
  - apply orb_true_iff in H as [H|H].
    + apply prefix_inv in H as [post ->]. now exists "", post.
    + destruct (IH H) as (pre & post & ->). now exists (String c pre), post.
Qed.

Lemma includes_length (n h : string) :
  includes n h = true -> String.length n <= String.length h.
Proof.
  intros H. apply includes_inv in H as (pre & post & ->).
  rewrite !length_app. lia.
Qed.

(** Where a line feed followed by [w] can occur in joined lines: only at
    the start of a line after the first. *)
Lemma single_line_app (a b : string) :
  Blocks.single_line (a ++ b)
  = Blocks.single_line a && Blocks.single_line b.
Proof.
  induction a as [|c a IH]; cbn [append Blocks.single_line]; [reflexivity|].
  now rewrite IH, andb_assoc.
Qed.

Lemma includes_after_single_line (w x s : string) :
  Blocks.single_line x = true ->
  includes (String LF w) (x ++ s) = includes (String LF w) s.
Proof.
  induction x as [|c x IH]; cbn [append Blocks.single_line]; intros H;
    [reflexivity|].
  apply andb_true_iff in H as [Hc Hx].
  cbn [includes prefix].
  destruct (ascii_dec LF c) as [<-|_].
  - rewrite Ascii.eqb_refl in Hc. discriminate Hc.
  - cbn [orb]. now apply IH.
Qed.

Lemma prefix_within_line (w y s : string) :
  Blocks.single_line w = true ->
  prefix w (y ++ String LF s) = true -> prefix w y = true.
Proof.
  revert y; induction w as [|a w IH]; intros y Hw H.
  - now destruct y.
  - cbn [Blocks.single_line] in Hw. apply andb_true_iff in Hw as [Ha Hw].
    destruct y as [|b y]; cbn [append prefix] in H |- *.
    + destruct (ascii_dec a LF) as [->|_]; [|discriminate H].
      rewrite Ascii.eqb_refl in Ha. discriminate Ha.
    + destruct (ascii_dec a b); [now apply IH | discriminate H].
Qed.

Lemma includes_line_start (w : string) (ls : list string) :
  Blocks.single_line w = true ->
  forallb Blocks.single_line ls = true ->
  includes (String LF w) (lines ls) = true ->
  existsb (prefix w) (tl ls) = true.
Proof.
  intros Hw. induction ls as [|x ls IH]; intros Hls H.
  - discriminate H.
  - cbn [forallb] in Hls. apply andb_true_iff in Hls as [Hx Hls].
    destruct ls as [|y ls].
    + change (lines [x]) with x in H.
      rewrite <- (app_empty_r x), includes_after_single_line in H by exact Hx.
      discriminate H.
    + rewrite lines_cons in H.
      rewrite includes_after_single_line in H by exact Hx.
      change (nl ++ lines (y :: ls)) with (String LF (lines (y :: ls))) in H.
      cbn [includes prefix] in H.
      destruct (ascii_dec LF LF) as [_|Hne]; [|congruence].
      cbn [tl existsb].
      apply orb_true_iff in H as [H|H].
      * apply orb_true_iff. left.
        destruct ls as [|z ls]; [exact H|].
        rewrite lines_cons in H.
        now apply (prefix_within_line w y (lines (z :: ls))).
      * apply orb_true_iff. right. now apply IH.
Qed.

End StringFacts.

(* ===================================================================== *)
(** ** Prompt assembly: [generateLocalPrompt]                            *)
(* ===================================================================== *)

Section PromptAssembly.
Import Js App Blocks.

Lemma jobInfo_none : jobInfo None = Ok "".
Proof. reflexivity. Qed.

Lemma jobInfo_some (job : Job.t) :
  Job.textual (Job.description job) = true ->
  jobInfo (Some job)
  = Ok (target_job_block job (rendered_description (Job.description job))).
Proof.
  unfold jobInfo, target_job_block, rendered_description.
  destruct (Job.description job) as [| |b|s]; cbn [opt_substring bind toString];
    intros H; try discriminate H; reflexivity.
Qed.


Lemma well_typed_description (job : Job.t) :
  Job.well_typed job = true -> Job.textual (Job.description job) = true.
Proof.
  unfold Job.well_typed. intros H.
  now apply andb_true_iff in H as [_ H].
Qed.

(** The template, read block by block. *)
Lemma generateLocalPrompt_blocks (st : State) :
  generateLocalPrompt st
  = (info <- jobInfo (selectedJob st) ;;
     Ok (opening_line ++ nl ++ nl ++ profile_block (profile st) ++ nl
         ++ info ++ nl ++ boilerplate)).
Proof.
  unfold generateLocalPrompt.
  destruct (jobInfo (selectedJob st)) as [info|e]; cbn [bind]; [|reflexivity].
  f_equal.
  change (lines (([opening_line; ""]
                  ++ ("CANDIDATE PROFILE:" :: profile_lines (profile st)))
                 ++ [info]
                 ++ employment_history_lines ++ resume_requirements_lines)%list
          = opening_line ++ nl ++ nl ++ profile_block (profile st) ++ nl
            ++ info ++ nl ++ boilerplate).
  rewrite (lines_app _ ([info] ++ _)) by discriminate.
  rewrite (lines_app [opening_line; ""]) by discriminate.
  rewrite (lines_app [info]) by discriminate.
  rewrite (lines_app employment_history_lines) by discriminate.
  unfold profile_block, boilerplate, employment_history, resume_requirements.
  change (lines [opening_line; ""]) with (opening_line ++ nl ++ "").
  change (lines [info]) with info.
  rewrite !app_assoc_s. reflexivity.
Qed.

(** A job whose description is not text makes the call throw. *)
Example generateLocalPrompt_ill_typed :
  generateLocalPrompt Samples.st_ill_typed = Throw TypeError.
Proof. reflexivity. Qed.

(** The spec's own test for long descriptions: 501 characters give the
    first 500 followed by the ellipsis. *)
Example jobInfo_501 :
  jobInfo (Some Samples.job_long)
  = Ok (target_job_block Samples.job_long
          (Samples.replicate 500 "a" ++ "...")).
Proof. vm_compute. reflexivity. Qed.

(** C1 (as stated, fails).  A description of three characters, well under
    the limit of 500, is not printed unchanged: the component appends
    the ellipsis to it all the same, where the rule of the specification
    would leave it bare. *)
Lemma C1_short_description_counterexample :
  String.length "abc" <= 500 /\
  Job.description Samples.job_short = VString "abc" /\
  Spec.truncate "abc" = "abc" /\
  jobInfo (Some Samples.job_short)
  = Ok (target_job_block Samples.job_short "abc...") /\
  jobInfo (Some Samples.job_short)
  <> Ok (target_job_block Samples.job_short (Spec.truncate "abc")) /\
  exists out,
    generateLocalPrompt Samples.st_short = Ok out /\
    includes ("- Description: abc..." ++ nl) out = true /\
    includes ("- Description: abc" ++ nl) out = false.
Proof.
  split; [simpl; lia|].
  split; [reflexivity|].
  split; [reflexivity|].
  split; [reflexivity|].
  split; [vm_compute; discriminate|].
  eexists. split; [vm_compute; reflexivity|].
  split; vm_compute; reflexivity.
Qed.

(** C1 (amended).  For every selected job with a text description, the
    description line of the target-job block is the first 500 characters
    of the description, the whole of it when it has 500 characters or
    fewer, always followed by the ellipsis: on a description longer than
    500 characters this is the rule of the specification. *)
Theorem C1_description_cut_then_ellipsis
    (st : State) (job : Job.t) (d : string)
    (Hsel : selectedJob st = Some job)
    (Hdesc : Job.description job = VString d) :
  generateLocalPrompt st
  = Ok (opening_line ++ nl ++ nl ++ profile_block (profile st) ++ nl
        ++ target_job_block job (substring 0 500 d ++ "...")
        ++ nl ++ boilerplate)
  /\ String.length (substring 0 500 d) = Nat.min 500 (String.length d)
  /\ (exists rest, d = substring 0 500 d ++ rest)
  /\ (String.length d <= 500 -> substring 0 500 d = d)
  /\ (500 < String.length d ->
      substring 0 500 d ++ "..." = Spec.truncate d).
Proof.
  split; [|split; [|split; [|split]]].
  - rewrite generateLocalPrompt_blocks, Hsel, jobInfo_some
      by (now rewrite Hdesc).
    now rewrite Hdesc.
  - apply substring_0_length.
  - eexists. apply substring_0_split.
  - apply substring_0_all.
  - intros H. unfold Spec.truncate.
    apply Nat.ltb_lt in H. now rewrite H.
Qed.

Lemma C1_description_cut_then_ellipsis_witness :
  generateLocalPrompt Samples.st_long
  = Ok (opening_line ++ nl ++ nl
        ++ profile_block (profile Samples.st_long) ++ nl
        ++ target_job_block Samples.job_long
             (substring 0 500 (Samples.replicate 500 "a" ++ "b") ++ "...")
        ++ nl ++ boilerplate).
Proof.
  apply (C1_description_cut_then_ellipsis Samples.st_long Samples.job_long
           (Samples.replicate 500 "a" ++ "b")); reflexivity.
Defined.

(** C2 (as stated, fails).  With the e-mail and GitHub boxes of the
    profile form left empty, the profile block still carries an e-mail
    line (with nothing after the label) and a GitHub line (reading
    N/A); listing only the non-empty fields would give four lines, not
    six. *)
Lemma C2_blank_fields_counterexample :
  Profile.email (profile Samples.st_blank_fields) = "" /\
  Profile.github (profile Samples.st_blank_fields) = "" /\
  List.length (Spec.profile_lines (profile Samples.st_blank_fields)) = 4 /\
  profile_lines (profile Samples.st_blank_fields)
  <> Spec.profile_lines (profile Samples.st_blank_fields) /\
  exists out,
    generateLocalPrompt Samples.st_blank_fields = Ok out /\
    includes (nl ++ "- Email: " ++ nl) out = true /\
    includes (nl ++ "- GitHub: N/A" ++ nl) out = true.
Proof.
  split; [reflexivity|].
  split; [reflexivity|].
  split; [reflexivity|].
  split; [vm_compute; discriminate|].
  eexists. split; [vm_compute; reflexivity|].
  split; vm_compute; reflexivity.
Qed.

(** C2 (amended).  For every profile, the profile block lists all six
    profile fields, each under its fixed label and in the fixed order
    Name, Location, Email, Phone, LinkedIn, GitHub, whatever their
    values: an empty field gives a line with the label alone, except
    GitHub, whose empty value is printed as N/A. *)
Theorem C2_profile_block_lists_all_fields (st : State) :
  generateLocalPrompt st
  = (info <- jobInfo (selectedJob st) ;;
     Ok (opening_line ++ nl ++ nl
         ++ lines [
              "CANDIDATE PROFILE:";
              "- Name: " ++ Profile.name (profile st);
              "- Location: " ++ Profile.location (profile st);
              "- Email: " ++ Profile.email (profile st);
              "- Phone: " ++ Profile.phone (profile st);
              "- LinkedIn: " ++ Profile.linkedin (profile st);
              "- GitHub: " ++ or_default (Profile.github (profile st)) "N/A"
            ]
         ++ nl ++ info ++ nl ++ boilerplate))
  /\ List.length (profile_lines (profile st)) = 6
  /\ or_default "" "N/A" = "N/A"
  /\ (Profile.github (profile st) <> "" ->
      or_default (Profile.github (profile st)) "N/A"
      = Profile.github (profile st)).
Proof.
  split; [apply generateLocalPrompt_blocks|].
  split; [reflexivity|].
  split; [reflexivity|].
  intros H. unfold or_default.
  destruct (String.eqb_spec (Profile.github (profile st)) ""); congruence.
Qed.

Lemma profile_lines_single_line (p : Profile.t) :
  single_line_profile p = true ->
  forallb single_line (profile_lines p) = true.
Proof.
  unfold single_line_profile. rewrite !andb_true_iff.
  intros (((((H1 & H2) & H3) & H4) & H5) & H6).
  unfold profile_lines. cbn [forallb].
  rewrite !single_line_app, H1, H2, H3, H4, H5.
  unfold or_default.
  destruct (Profile.github p =? "")%string; [reflexivity|].
  rewrite H6. reflexivity.
Qed.

(** Without a job, no line of the prompt starts with the heading or a
    label of the job block, provided the profile boxes hold no line
    feed. *)
Lemma no_job_no_label_line (st : State) (label : string) :
  selectedJob st = None ->
  single_line_profile (profile st) = true ->
  In label job_labels ->
  forall out, generateLocalPrompt st = Ok out ->
  includes (nl ++ label) out = false.
Proof.
  intros Hnone Hp Hin out Hout.
  unfold generateLocalPrompt in Hout. rewrite Hnone in Hout.
  cbn [jobInfo bind] in Hout. injection Hout as <-.
  match goal with
  | |- includes _ (lines ?l) = false =>
      change l with ([opening_line; ""; "CANDIDATE PROFILE:"]
                     ++ profile_lines (profile st)
                     ++ "" :: employment_history_lines
                     ++ resume_requirements_lines)%list
  end.
  destruct (includes _ _) eqn:E; [exfalso | reflexivity].
  change (nl ++ label) with (String LF label) in E.
  apply includes_line_start in E.
  - change (existsb (prefix label)
              ([""; "CANDIDATE PROFILE:"]
               ++ profile_lines (profile st)
               ++ "" :: employment_history_lines
               ++ resume_requirements_lines)%list = true) in E.
    rewrite existsb_app in E.
    apply orb_true_iff in E as [E|E].
    + cbn [job_labels In] in Hin.
      repeat (destruct Hin as [<-|Hin]; [vm_compute in E; discriminate E|]).
      contradiction.
    + rewrite existsb_app in E. apply orb_true_iff in E as [E|E].
      * cbn [job_labels In] in Hin.
        repeat (destruct Hin as [<-|Hin]; [vm_compute in E; discriminate E|]).
        contradiction.
      * cbn [job_labels In] in Hin.
        repeat (destruct Hin as [<-|Hin]; [vm_compute in E; discriminate E|]).
        contradiction.
  - cbn [job_labels In] in Hin.
    repeat (destruct Hin as [<-|Hin]; [reflexivity|]). contradiction.
  - rewrite forallb_app, forallb_app, profile_lines_single_line by exact Hp.
    vm_compute. reflexivity.
Qed.

(** C4.  When no job is selected the [jobInfo] hole of the template is
    the empty string: the prompt is the profile part immediately followed
    by the closing part, exactly what a prompt with a job becomes once its
    target-job block is taken out; and (the profile boxes being one-line
    inputs) no line of it starts with the heading or a label of the job
    block. *)
Theorem C4_no_job_no_block (st : State) (Hnone : selectedJob st = None) :
  exists out,
    jobInfo (selectedJob st) = Ok ""
    /\ generateLocalPrompt st = Ok out
    /\ out = (opening_line ++ nl ++ nl ++ profile_block (profile st) ++ nl)
             ++ (nl ++ boilerplate)
    /\ (forall job,
          Job.well_typed job = true ->
          generateLocalPrompt (setSelectedJob (Some job) st)
          = Ok ((opening_line ++ nl ++ nl ++ profile_block (profile st) ++ nl)
                ++ target_job_block job
                     (rendered_description (Job.description job))
                ++ (nl ++ boilerplate)))
    /\ (single_line_profile (profile st) = true ->
        forall label, In label job_labels ->
                      includes (nl ++ label) out = false).
Proof.
  assert (Hout : generateLocalPrompt st
                 = Ok ((opening_line ++ nl ++ nl
                        ++ profile_block (profile st) ++ nl)
                       ++ (nl ++ boilerplate))).
  { rewrite generateLocalPrompt_blocks, Hnone. cbn [jobInfo bind].
    now rewrite !app_assoc_s. }
  eexists. split; [now rewrite Hnone|].
  split; [exact Hout|]. split; [reflexivity|]. split.
  - intros job Hjob.
    rewrite generateLocalPrompt_blocks. cbn [setSelectedJob selectedJob profile].
    rewrite jobInfo_some by now apply well_typed_description.
    cbn [bind]. now rewrite !app_assoc_s.
  - intros Hp label Hin.
    now apply (no_job_no_label_line st label Hnone Hp Hin).
Qed.

Lemma C4_no_job_no_block_witness :
  exists out,
    generateLocalPrompt initial = Ok out
    /\ out = (opening_line ++ nl ++ nl ++ profile_block default_profile ++ nl)
             ++ (nl ++ boilerplate)
    /\ includes (nl ++ "TARGET JOB:") out = false.
Proof.
  destruct (C4_no_job_no_block initial eq_refl) as (out & _ & H2 & H3 & _ & H5).
  exists out. split; [exact H2|]. split; [exact H3|].
  apply (H5 eq_refl). now left.
Defined.

(** With the initial profile and no job, neither the heading of the job
    block nor any of its labels occurs in the prompt. *)
Example no_job_labels_initially :
  exists out,
    generateLocalPrompt initial = Ok out /\
    forallb (fun label => negb (includes label out))
      ["TARGET JOB:"; "- Title: "; "- Requisition ID: "; "- Pay Range: ";
       "- Technologies: "; "- Description: "; "undefined"; "null"] = true.
Proof. eexists. split; vm_compute; reflexivity. Qed.

(** C5.  [generateLocalPrompt] reads the selected job and the profile
    and nothing else, writes nothing, and on a well-typed job record it
    cannot throw: two states that agree on the job and on the profile
    (two invocations on the same inputs) both return the same string. *)
Theorem C5_assembly_pure_deterministic_total
    (st st' : State)
    (Hjob : selectedJob st = selectedJob st')
    (Hprofile : profile st = profile st')
    (Htyped : job_typed (selectedJob st) = true) :
  exists out,
    generateLocalPrompt st = Ok out /\ generateLocalPrompt st' = Ok out.
Proof.
  rewrite !generateLocalPrompt_blocks, <- Hjob, <- Hprofile.
  destruct (selectedJob st) as [job|]; cbn [job_typed] in Htyped.
  - rewrite jobInfo_some by now apply well_typed_description.
    eexists. split; reflexivity.
  - eexists. split; reflexivity.
Qed.

Lemma C5_assembly_pure_deterministic_total_witness :
  exists out,
    generateLocalPrompt Samples.st_short = Ok out /\
    generateLocalPrompt
      (setGeneratedPrompt "old" (setLoading false Samples.st_short))
    = Ok out.
Proof.
  apply (C5_assembly_pure_deterministic_total Samples.st_short
           (setGeneratedPrompt "old" (setLoading false Samples.st_short)));
    reflexivity.
Defined.

(** C6.  The prompt is, in this order: the opening sentence and the
    profile block; then, only when a job is selected, the target-job
    block with title, requisition id, location, pay range, technologies
    and the cut description; then the closing block (employment history
    followed by the resume requirements), which is one closed string,
    the same for every state. *)
Theorem C6_blocks_in_fixed_order
    (st : State) (Htyped : job_typed (selectedJob st) = true) :
  generateLocalPrompt st
  = Ok (opening_line ++ nl ++ nl
        ++ profile_block (profile st) ++ nl
        ++ match selectedJob st with
           | Some job =>
               lines [
                 "";
                 "TARGET JOB:";
                 "- Title: " ++ toString (Job.title job);
                 "- Requisition ID: " ++ toString (Job.req_id job);
                 "- Location: " ++ toString (Job.location job);
                 "- Pay Range: " ++ toString (Job.pay_range job);
                 "- Technologies: " ++ toString (Job.tech_keywords job);
                 "- Description: "
                   ++ rendered_description (Job.description job);
                 ""
               ]
           | None => ""
           end
        ++ nl ++ boilerplate)
  /\ boilerplate = employment_history ++ nl ++ resume_requirements
  /\ prefix "EMPLOYMENT HISTORY" boilerplate = true
  /\ prefix "RESUME REQUIREMENTS:" resume_requirements = true
  /\ String.length boilerplate = 1727.
Proof.
  split; [|repeat split; vm_compute; reflexivity].
  rewrite generateLocalPrompt_blocks.
  destruct (selectedJob st) as [job|]; cbn [job_typed] in Htyped.
  - rewrite jobInfo_some by now apply well_typed_description.
    reflexivity.
  - reflexivity.
Qed.

Lemma C6_blocks_in_fixed_order_witness :
  exists out, generateLocalPrompt Samples.st_long = Ok out.
Proof.
  eexists.
  exact (proj1 (C6_blocks_in_fixed_order Samples.st_long eq_refl)).
Defined.

End PromptAssembly.

(* ===================================================================== *)
(** ** The CLI command: [generateCliCommand]                             *)
(* ===================================================================== *)

Section CliCommand.
Import Js App Blocks.

(** After the second [replace] every double quote follows a backslash,
    and the third [replace] keeps it so. *)
Lemma guarded_quote_pass (s : string) (prev : bool) :
  guarded prev (replace_all dquote (bs ++ dq) s) = true.
Proof.
  revert prev; induction s as [|c s IH]; intros prev; [reflexivity|].
  cbn [replace_all]. destruct (Ascii.eqb c dquote) eqn:E.
  - change (bs ++ dq ++ replace_all dquote (bs ++ dq) s)
      with (String backslash (String dquote (replace_all dquote (bs ++ dq) s))).
    change ((bs ++ dq) ++ replace_all dquote (bs ++ dq) s)
      with (String backslash (String dquote (replace_all dquote (bs ++ dq) s))).
    cbn [guarded].
    change (Ascii.eqb backslash dquote) with false.
    change (Ascii.eqb backslash backslash) with true.
    change (Ascii.eqb dquote dquote) with true.
    change (Ascii.eqb dquote backslash) with false.
    cbn [andb]. apply IH.
  - cbn [guarded]. rewrite E. cbn [andb]. apply IH.
Qed.

Lemma guarded_newline_pass (s : string) (prev : bool) :
  guarded prev s = true ->
  guarded prev (replace_all LF (bs ++ "n") s) = true.
Proof.
  revert prev; induction s as [|c s IH]; intros prev H; [reflexivity|].
  cbn [replace_all]. destruct (Ascii.eqb c LF) eqn:E.
  - apply Ascii.eqb_eq in E. subst c.
    change ((bs ++ "n") ++ replace_all LF (bs ++ "n") s)
      with (String backslash (String "n" (replace_all LF (bs ++ "n") s))).
    cbn [guarded] in H |- *.
    change (Ascii.eqb LF dquote) with false in H.
    change (Ascii.eqb LF backslash) with false in H.
    change (Ascii.eqb backslash dquote) with false.
    change (Ascii.eqb backslash backslash) with true.
    change (Ascii.eqb "n" dquote) with false.
    change (Ascii.eqb "n" backslash) with false.
    cbn [andb] in H |- *. now apply IH.
  - cbn [guarded] in H |- *.
    apply andb_true_iff in H as [H1 H2].
    rewrite H1. cbn [andb]. now apply IH.
Qed.

Lemma guarded_escape (p : string) (prev : bool) :
  guarded prev (escape p) = true.
Proof. apply guarded_newline_pass, guarded_quote_pass. Qed.

Lemma guarded_app_r (x s : string) (prev : bool) :
  guarded prev (x ++ s) = true -> exists prev', guarded prev' s = true.
Proof.
  revert prev; induction x as [|c x IH]; intros prev H.
  - now exists prev.
  - cbn [append guarded] in H. apply andb_true_iff in H as [_ H].
    now apply (IH _ H).
Qed.

Ltac peel e H Hlen :=
  destruct e as [|? e];
  [ cbn [String.length] in Hlen; lia
  | cbn [append] in H; injection H as -> H ].

(** An escaped text longer than 503 characters does not occur in the
    command built from its first 500 characters. *)
Lemma long_escaped_not_included (e : string) :
  guarded false e = true ->
  503 < String.length e ->
  includes e ("claude -p " ++ dq ++ substring 0 500 e ++ "..." ++ dq) = false.
Proof.
  intros Hg Hlen.
  destruct (includes e _) eqn:Hinc; [exfalso | reflexivity].
  apply includes_inv in Hinc as (pre & post & H).
  pose proof (substring_0_split 500 e) as He.
  pose proof (substring_0_length 500 e) as HX.
  rewrite Nat.min_l in HX by lia.
  set (X := substring 0 500 e) in *.
  set (rest := substring 500 (String.length e - 500) e) in *.
  clearbody X rest.
  assert (Hpre : String.length pre <= 11).
  { apply (f_equal String.length) in H.
    rewrite !length_app, HX in H. cbn [String.length dq] in H. lia. }
  change ("claude -p " ++ dq ++ X ++ "..." ++ dq)
    with (String "c" (String "l" (String "a" (String "u" (String "d"
         (String "e" (String " " (String "-" (String "p" (String " "
         (String dquote (X ++ "..." ++ dq)))))))))))) in H.
  symmetry in H.
  do 11 (destruct pre as [|? pre];
         [ cbn [append] in H; clear He;
           repeat peel e H Hlen;
           cbn in Hg; discriminate Hg
         | cbn [append] in H; injection H as _ H;
           cbn [String.length] in Hpre ]).
  destruct pre as [|? pre]; [|cbn [String.length] in Hpre; lia].
  cbn [append] in H. subst e.
  rewrite app_assoc_s in H. apply app_inv_head_s in H.
  rewrite length_app, HX in Hlen.
  assert (Hrest : 3 < String.length rest) by lia. clear Hlen.
  do 4 peel rest H Hrest.
  apply guarded_app_r in Hg as [prev' Hg].
  cbn [guarded] in Hg.
  change (Ascii.eqb "." dquote) with false in Hg.
  change (Ascii.eqb "." backslash) with false in Hg.
  change (Ascii.eqb dquote dquote) with true in Hg.
  cbn [andb] in Hg.
  destruct prev'; cbn [andb] in Hg; discriminate Hg.
Qed.

(** [escape] on a sample: backslash, quote and line feed are escaped. *)
Example escape_sample :
  escape (generatedPrompt Samples.st_quoted)
  = "say " ++ bs ++ dq ++ "hi" ++ bs ++ dq ++ bs ++ "n" ++ "a" ++ bs ++ bs
    ++ "b".
Proof. reflexivity. Qed.

(** C9 (as stated, fails).  A prompt of 500 letters followed by three
    dots has an escaped form of 503 characters, more than 500, and the
    command built from it is the opening of the command, the whole
    prompt, and the closing quote: the full prompt is in the command. *)
Lemma C9_dotted_prompt_counterexample :
  escape (generatedPrompt Samples.st_dotted) = Samples.dotted_prompt /\
  String.length (escape (generatedPrompt Samples.st_dotted)) = 503 /\
  500 < String.length (escape (generatedPrompt Samples.st_dotted)) /\
  generateCliCommand Samples.st_dotted
  = "claude -p " ++ dq ++ Samples.dotted_prompt ++ dq /\
  includes (escape (generatedPrompt Samples.st_dotted))
    (generateCliCommand Samples.st_dotted) = true /\
  includes (generatedPrompt Samples.st_dotted)
    (generateCliCommand Samples.st_dotted) = true.
Proof.
  split; [vm_compute; reflexivity|].
  split; [vm_compute; reflexivity|].
  split; [apply Nat.ltb_lt; vm_compute; reflexivity|].
  split; [vm_compute; reflexivity|].
  split; vm_compute; reflexivity.
Qed.

(** C9 (amended).  For every generated prompt, the command is
    [claude -p] and an opening quote, the first 500 characters of the
    escaped prompt, three dots and a closing quote, whatever the length
    of the prompt; what
    the escaped prompt has beyond 500 characters is dropped, and the
    command never contains the full escaped prompt when the escaped
    prompt exceeds 503 characters. *)
Theorem C9_cli_command_carries_500_characters (st : State) :
  generateCliCommand st
  = "claude -p " ++ dq
    ++ substring 0 500 (escape (generatedPrompt st)) ++ "..." ++ dq
  /\ String.length (generateCliCommand st)
     = 15 + Nat.min 500 (String.length (escape (generatedPrompt st)))
  /\ (exists rest,
        escape (generatedPrompt st)
        = substring 0 500 (escape (generatedPrompt st)) ++ rest
        /\ String.length rest
           = String.length (escape (generatedPrompt st)) - 500)
  /\ (503 < String.length (escape (generatedPrompt st)) ->
      includes (escape (generatedPrompt st)) (generateCliCommand st)
      = false).
Proof.
  assert (Hcmd : generateCliCommand st
                 = "claude -p " ++ dq
                   ++ substring 0 500 (escape (generatedPrompt st))
                   ++ "..." ++ dq).
  { unfold generateCliCommand. rewrite substring_method_0.
    now rewrite !app_assoc_s. }
  split; [exact Hcmd|].
  split; [|split].
  - rewrite Hcmd, !length_app, substring_0_length.
    cbn [String.length dq]. lia.
  - eexists. split; [apply substring_0_split|].
    pose proof (substring_0_split 500 (escape (generatedPrompt st))) as H.
    apply (f_equal String.length) in H.
    rewrite length_app, substring_0_length in H. lia.
  - intros Hlen. rewrite Hcmd.
    apply long_escaped_not_included; [apply guarded_escape | exact Hlen].
Qed.

Lemma C9_cli_command_carries_500_characters_witness :
  503 < String.length (escape (generatedPrompt Samples.st_quoted ++
                               Samples.replicate 500 "a")) /\
  includes
    (escape (generatedPrompt
               (setGeneratedPrompt
                  (generatedPrompt Samples.st_quoted
                   ++ Samples.replicate 500 "a") initial)))
    (generateCliCommand
       (setGeneratedPrompt
          (generatedPrompt Samples.st_quoted ++ Samples.replicate 500 "a")
          initial))
  = false.
Proof.
  split; [apply Nat.ltb_lt; vm_compute; reflexivity|].
  apply (C9_cli_command_carries_500_characters
           (setGeneratedPrompt
              (generatedPrompt Samples.st_quoted
               ++ Samples.replicate 500 "a") initial)).
  apply Nat.ltb_lt. vm_compute. reflexivity.
Defined.

End CliCommand.

(* ===================================================================== *)
(** ** Prompt generation in the UI: [generatePrompt]                     *)
(* ===================================================================== *)

Section GeneratePrompt.
Import Js App Blocks.

Lemma local_prompt_shape (st : State) :
  job_typed (selectedJob st) = true ->
  exists middle,
    generateLocalPrompt st
    = Ok (opening_line ++ middle ++ employment_history ++ nl
          ++ resume_requirements).
Proof.
  intros Htyped. rewrite generateLocalPrompt_blocks.
  destruct (selectedJob st) as [job|]; cbn [job_typed] in Htyped.
  - rewrite jobInfo_some by now apply well_typed_description.
    cbn [bind]. unfold boilerplate.
    exists (nl ++ nl ++ profile_block (profile st) ++ nl
            ++ target_job_block job
                 (rendered_description (Job.description job)) ++ nl).
    now rewrite !app_assoc_s.
  - cbn [jobInfo bind]. unfold boilerplate.
    exists (nl ++ nl ++ profile_block (profile st) ++ nl ++ "" ++ nl).
    now rewrite !app_assoc_s.
Qed.





(** When the server answers, its prompt is shown as it is. *)
Lemma generatePrompt_resolved
    (post : prompt_request -> response string) (st : State)
    (prompt : string) :
  post (mkRequest (selected_req_id st) (profile st)) = Resolved prompt ->
  generatePrompt post st
  = (Ok (setShowPromptSection true (setGeneratedPrompt prompt st)), []).
Proof. intros H. unfold generatePrompt. now rewrite H. Qed.

(** An ill-typed description makes the fallback itself throw: nothing is
    shown. *)
Example generatePrompt_ill_typed :
  generatePrompt Samples.server_down Samples.st_ill_typed
  = (Throw TypeError,
     [ConsoleError "Error generating prompt:" NetworkError]).
Proof. reflexivity. Qed.

End GeneratePrompt.

(* ===================================================================== *)
(** ** Record store and query service                                    *)
(* ===================================================================== *)

Section RecordStore.
Import Backend.

Lemma get_put (r : JobRecord) (s : Store) :
  get (req_id r) (put r s) = Success r.
Proof.
  unfold get. induction s as [|x s IH]; cbn [put find].
  - now rewrite String.eqb_refl.
  - destruct (req_id x =? req_id r)%string eqn:E; cbn [find].
    + now rewrite String.eqb_refl.
    + now rewrite E.
Qed.

Lemma get_put_other (r : JobRecord) (id : string) (s : Store) :
  id <> req_id r -> get id (put r s) = get id s.
Proof.
  intros Hid. unfold get. induction s as [|x s IH]; cbn [put find].
  - apply String.eqb_neq in Hid. rewrite String.eqb_sym in Hid.
    now rewrite Hid.
  - destruct (req_id x =? req_id r)%string eqn:E; cbn [find].
    + apply String.eqb_eq in E. rewrite E.
      apply String.eqb_neq in Hid. rewrite String.eqb_sym in Hid.
      now rewrite Hid.
    + destruct (req_id x =? id)%string; [reflexivity | exact IH].
Qed.

Lemma In_put (r : JobRecord) (s : Store) : In r (put r s).
Proof.
  induction s as [|x s IH]; cbn [put]; [now left|].
  destruct (req_id x =? req_id r)%string; [now left | now right].
Qed.

(** Replacing a stored record does not add a row. *)
Lemma count_put_present (r : JobRecord) (s : Store) :
  (exists x, In x s /\ req_id x = req_id r) -> count (put r s) = count s.
Proof.
  unfold count. induction s as [|x s IH]; intros (y & Hin & Hy).
  - destruct Hin.
  - cbn [put]. destruct (req_id x =? req_id r)%string eqn:E; [reflexivity|].
    cbn [List.length]. f_equal. apply IH.
    destruct Hin as [->|Hin]; [|now exists y].
    apply String.eqb_neq in E. congruence.
Qed.

Lemma count_put_absent (r : JobRecord) (s : Store) :
  (forall x, In x s -> req_id x <> req_id r) ->
  count (put r s) = S (count s).
Proof.
  unfold count. induction s as [|x s IH]; intros H; [reflexivity|].
  cbn [put]. destruct (req_id x =? req_id r)%string eqn:E.
  - apply String.eqb_eq in E. exfalso. apply (H x); [now left | exact E].
  - cbn [List.length]. f_equal. apply IH. intros y Hy. apply H. now right.
Qed.

Lemma ids_put_in (r : JobRecord) (s : Store) (id : string) :
  In id (map req_id (put r s)) -> id = req_id r \/ In id (map req_id s).
Proof.
  induction s as [|x s IH]; cbn [put map In].
  - intros [H|[]]. now left.
  - destruct (req_id x =? req_id r)%string eqn:E; cbn [map In].
    + intros [H|H]; [now left | now right; right].
    + intros [H|H]; [now right; left|].
      destruct (IH H); [now left | now right; right].
Qed.

(** The uniqueness invariant of the store is kept by [put]. *)
Lemma NoDup_put (r : JobRecord) (s : Store) :
  NoDup (map req_id s) -> NoDup (map req_id (put r s)).
Proof.
  induction s as [|x s IH]; cbn [put map]; intros H.
  - constructor; [intros [] | constructor].
  - inversion H as [|? ? Hx Hs]; subst.
    destruct (req_id x =? req_id r)%string eqn:E; cbn [map].
    + apply String.eqb_eq in E. rewrite <- E. now constructor.
    + constructor; [|now apply IH].
      intros Hin. apply ids_put_in in Hin as [Hin|Hin]; [|contradiction].
      apply String.eqb_neq in E. congruence.
Qed.

Lemma get_unknown (id : string) (s : Store) :
  (forall r, In r (all s) -> req_id r <> id) -> get id s = Failure NotFound.
Proof.
  unfold get, all. induction s as [|x s IH]; intros H; [reflexivity|].
  cbn [find]. destruct (req_id x =? id)%string eqn:E.
  - apply String.eqb_eq in E. exfalso. apply (H x); [now left | exact E].
  - apply IH. intros r Hr. apply H. now right.
Qed.

(** C7.  For valid records [r1 <> r2] with the same [req_id], after
    [upsert r1] and then [upsert r2] the store answers [get] with [r2]
    itself, not [r1] and not a mixture, and the second [upsert] leaves
    the count as it was; the identifiers stay pairwise distinct. *)
Theorem C7_upsert_replaces
    (s : Store) (r1 r2 : JobRecord)
    (Hv1 : valid r1 = true) (Hv2 : valid r2 = true)
    (Hid : req_id r1 = req_id r2) (Hneq : r1 <> r2) :
  exists s1 s2,
    upsert r1 s = Success s1
    /\ upsert r2 s1 = Success s2
    /\ get (req_id r1) s2 = Success r2
    /\ get (req_id r1) s2 <> Success r1
    /\ count s2 = count s1
    /\ (NoDup (map req_id (all s)) -> NoDup (map req_id (all s2))).
Proof.
  exists (put r1 s), (put r2 (put r1 s)).
  unfold upsert. rewrite Hv1, Hv2.
  split; [reflexivity|]. split; [reflexivity|].
  rewrite Hid, get_put.
  split; [reflexivity|].
  split; [intros H; injection H as H; congruence|].
  split.
  - apply count_put_present. exists r1. split; [apply In_put | exact Hid].
  - intros H. unfold all. now apply NoDup_put, NoDup_put.
Qed.

Lemma C7_upsert_replaces_witness :
  exists s1 s2,
    upsert Samples.r1 Samples.store3 = Success s1
    /\ upsert Samples.r1' s1 = Success s2
    /\ get "2025-0001" s2 = Success Samples.r1'
    /\ get "2025-0001" s2 <> Success Samples.r1
    /\ count s2 = count s1
    /\ (NoDup (map req_id (all Samples.store3)) ->
        NoDup (map req_id (all s2))).
Proof.
  apply (C7_upsert_replaces Samples.store3 Samples.r1 Samples.r1');
    [reflexivity | reflexivity | reflexivity | discriminate].
Defined.

(** An invalid record is rejected and the store is not touched. *)
Lemma upsert_invalid (r : JobRecord) (s : Store) :
  valid r = false -> upsert r s = Failure ValidationError.
Proof. intros H. unfold upsert. now rewrite H. Qed.

(** C3.  For an identifier that no stored record carries, the
    [generatePrompt] of the query service fails with [NotFound], for
    every assembler and profile: the result is the typed error and no
    prompt string at all. *)
Theorem C3_unknown_job_id_not_found
    (assemble : Profile.t -> option JobRecord -> string)
    (s : Store) (id : string) (p : Profile.t)
    (Hunknown : forall r, In r (all s) -> req_id r <> id) :
  generatePrompt assemble s (Some id) p = Failure NotFound
  /\ forall out, generatePrompt assemble s (Some id) p <> Success out.
Proof.
  assert (H : generatePrompt assemble s (Some id) p = Failure NotFound).
  { unfold generatePrompt, getJob. now rewrite get_unknown. }
  split; [exact H|]. intros out. rewrite H. discriminate.
Qed.

Lemma C3_unknown_job_id_not_found_witness :
  generatePrompt Samples.echo_assembler Samples.store3 (Some "2025-9999")
    App.default_profile = Failure NotFound.
Proof.
  refine (proj1 (C3_unknown_job_id_not_found Samples.echo_assembler
                   Samples.store3 "2025-9999" App.default_profile _)).
  intros r [<-|[<-|[<-|[]]]]; discriminate.
Defined.

(** A known identifier, or none at all, goes to the assembler. *)
Lemma generatePrompt_known
    (assemble : Profile.t -> option JobRecord -> string)
    (s : Store) (r : JobRecord) (p : Profile.t) :
  get (req_id r) s = Success r ->
  generatePrompt assemble s (Some (req_id r)) p
  = Success (assemble p (Some r)).
Proof. intros H. unfold generatePrompt, getJob. now rewrite H. Qed.

(** End to end: the server answers 404 for a job it does not know, and
    the UI then shows its own local prompt. *)
Example unknown_job_end_to_end :
  Http.post_generate_prompt Samples.echo_assembler [Samples.r2; Samples.r3]
    (App.mkRequest (App.selected_req_id Samples.st_short)
       (App.profile Samples.st_short))
  = App.Rejected (App.HttpError 404)
  /\ exists st',
       App.generatePrompt
         (Http.post_generate_prompt Samples.echo_assembler
            [Samples.r2; Samples.r3]) Samples.st_short
       = (Js.Ok st',
          [App.ConsoleError "Error generating prompt:" (App.HttpError 404)])
       /\ App.showPromptSection st' = true
       /\ Js.Ok (App.generatedPrompt st')
          = App.generateLocalPrompt Samples.st_short.
Proof.
  split; [reflexivity|].
  eexists. split; [vm_compute; reflexivity|].
  split; vm_compute; reflexivity.
Qed.

End RecordStore.

(* ===================================================================== *)
(** ** Search index                                                      *)
(* ===================================================================== *)

Section Sorting.
Import Backend.
Context {A : Type} (leb : A -> A -> bool).

Lemma insert_perm (x : A) (l : list A) : Permutation (insert leb x l) (x :: l).
Proof.
  induction l as [|y l IH]; cbn [insert]; [reflexivity|].
  destruct (leb x y); [reflexivity|].
  rewrite IH. apply perm_swap.
Qed.

Lemma sort_perm (l : list A) : Permutation (sort leb l) l.
Proof.
  induction l as [|x l IH]; cbn [sort]; [reflexivity|].
  rewrite insert_perm. now constructor.
Qed.

Hypothesis leb_total : forall a b, leb a b = true \/ leb b a = true.
Hypothesis leb_trans :
  forall a b c, leb a b = true -> leb b c = true -> leb a c = true.

Lemma insert_sorted (x : A) (l : list A) :
  StronglySorted (fun a b => leb a b = true) l ->
  StronglySorted (fun a b => leb a b = true) (insert leb x l).
Proof.
  induction 1 as [|y l Hs IH Hy]; cbn [insert].
  - constructor; constructor.
  - destruct (leb x y) eqn:E.
    + constructor; [now constructor|].
      constructor; [exact E|].
      eapply Forall_impl; [|exact Hy].
      intros z Hz. now apply (leb_trans x y z).
    + constructor; [exact IH|].
      eapply Permutation_Forall; [symmetry; apply insert_perm|].
      constructor; [|exact Hy].
      destruct (leb_total x y) as [H|H]; [congruence | exact H].
Qed.

Lemma sort_sorted (l : list A) :
  StronglySorted (fun a b => leb a b = true) (sort leb l).
Proof.
  induction l as [|x l IH]; cbn [sort]; [constructor|].
  now apply insert_sorted.
Qed.

End Sorting.

Section SearchIndex.
Import Backend.

Lemma ascii_compare_refl (a : ascii) : Ascii.compare a a = Eq.
Proof. unfold Ascii.compare. apply N.compare_refl. Qed.

Lemma ascii_compare_lt_trans (a b c : ascii) :
  Ascii.compare a b = Lt -> Ascii.compare b c = Lt -> Ascii.compare a c = Lt.
Proof.
  unfold Ascii.compare. rewrite !N.compare_lt_iff. apply N.lt_trans.
Qed.

(** The order on identifiers is transitive. *)
Lemma string_leb_trans (a b c : string) :
  String.leb a b = true -> String.leb b c = true -> String.leb a c = true.
Proof.
  unfold String.leb.
  revert b c; induction a as [|x a IH]; intros [|y b] [|z c];
    cbn [String.compare]; try easy.
  destruct (Ascii.compare x y) eqn:Exy; try easy;
    destruct (Ascii.compare y z) eqn:Eyz; try easy.
  - apply Ascii.compare_eq_iff in Exy, Eyz. subst.
    rewrite ascii_compare_refl. apply IH.
  - apply Ascii.compare_eq_iff in Exy. subst. now rewrite Eyz.
  - apply Ascii.compare_eq_iff in Eyz. subst. now rewrite Exy.
  - now rewrite (ascii_compare_lt_trans x y z).
Qed.

Lemma recent_first_total (a b : JobRecord) :
  recent_first a b = true \/ recent_first b a = true.
Proof.
  unfold recent_first.
  destruct (Z.lt_trichotomy (ingested_at a) (ingested_at b)) as [H|[H|H]].
  - right. apply orb_true_iff. left. now apply Z.ltb_lt.
  - destruct (String.leb_total (req_id a) (req_id b)) as [L|L].
    + left. apply orb_true_iff. right.
      rewrite L, andb_true_r. now apply Z.eqb_eq.
    + right. apply orb_true_iff. right.
      rewrite L, andb_true_r. now apply Z.eqb_eq.
  - left. apply orb_true_iff. left. now apply Z.ltb_lt.
Qed.

Lemma recent_first_spec (a b : JobRecord) :
  recent_first a b = true <->
  (ingested_at b < ingested_at a)%Z
  \/ (ingested_at a = ingested_at b
      /\ (req_id a <=? req_id b)%string = true).
Proof.
  unfold recent_first.
  rewrite orb_true_iff, andb_true_iff, Z.ltb_lt, Z.eqb_eq. reflexivity.
Qed.

Lemma recent_first_trans (a b c : JobRecord) :
  recent_first a b = true -> recent_first b c = true ->
  recent_first a c = true.
Proof.
  rewrite !recent_first_spec.
  intros [H1|[H1 L1]] [H2|[H2 L2]].
  - left. lia.
  - left. lia.
  - left. lia.
  - right. split; [lia|]. now apply (string_leb_trans _ (req_id b)).
Qed.

Lemma search_empty (s : Store) : search "" s = sort recent_first (all s).
Proof. reflexivity. Qed.

(** C8.  For every store, the empty query returns every stored record
    and nothing else (a permutation of the table), so as many records
    as [count] says, ordered most recently ingested first and, among
    records ingested at the same time, by ascending [req_id]; the UI
    sends the empty query without a [q] parameter and shows that
    list. *)
Theorem C8_empty_query_returns_all (s : Store) (st : App.State) :
  Permutation (search "" s) (all s)
  /\ List.length (search "" s) = count s
  /\ StronglySorted
       (fun a b =>
          (ingested_at b < ingested_at a)%Z
          \/ (ingested_at a = ingested_at b
              /\ (req_id a <=? req_id b)%string = true))
       (search "" s)
  /\ App.jobs (fst (App.fetchJobs (Http.get_jobs s) "" st))
     = map Http.to_json (search "" s)
  /\ List.length (App.jobs (fst (App.fetchJobs (Http.get_jobs s) "" st)))
     = count s.
Proof.
  assert (Hperm : Permutation (search "" s) (all s)).
  { rewrite search_empty. apply sort_perm. }
  assert (Hlen : List.length (search "" s) = count s).
  { unfold count. now rewrite (Permutation_length Hperm). }
  split; [exact Hperm|]. split; [exact Hlen|]. split; [|split].
  - rewrite search_empty.
    pose proof (sort_sorted recent_first recent_first_total
                  recent_first_trans (all s)) as H.
    induction H as [|x l Hs IH Hx]; constructor; [exact IH|].
    eapply Forall_impl; [|exact Hx].
    intros y Hy. now apply recent_first_spec.
  - reflexivity.
  - change (App.jobs (fst (App.fetchJobs (Http.get_jobs s) "" st)))
      with (map Http.to_json (search "" s)).
    now rewrite length_map.
Qed.

(** On the sample store: the two records ingested at time 20 come first,
    in the order of their identifiers, then the others by age. *)
Example search_empty_sample :
  map req_id
    (search "" [Samples.r1; Samples.r3; Samples.r2;
                Backend.mkJob "2025-0000" "QA" "" None [] None 20])
  = ["2025-0000"; "2025-0002"; "2025-0001"; "2025-0003"].
Proof. reflexivity. Qed.

(** A query with terms filters: both terms must match, ignoring case. *)
Example search_sample :
  map req_id (search "JAVA austin" Samples.store3) = ["2025-0001"]
  /\ map req_id (search "java" Samples.store3) = ["2025-0002"; "2025-0001"]
  /\ map req_id (search "lead" Samples.store3) = ["2025-0003"].
Proof. repeat split; vm_compute; reflexivity. Qed.

End SearchIndex.

(* ===================================================================== *)
(** ** More on the escaping of the CLI command                           *)
(* ===================================================================== *)

Section EscapingFacts.
Import Js App Blocks Escaping.

Lemma replace_all_app (c : ascii) (r a b : string) :
  replace_all c r (a ++ b) = replace_all c r a ++ replace_all c r b.
Proof.
  induction a as [|x a IH]; cbn [append replace_all]; [reflexivity|].
  rewrite IH. destruct (Ascii.eqb x c); [now rewrite app_assoc_s | reflexivity].
Qed.

Lemma escape_each_app (a b : string) :
  escape_each (a ++ b) = escape_each a ++ escape_each b.
Proof.
  induction a as [|x a IH]; cbn [append escape_each]; [reflexivity|].
  now rewrite IH, app_assoc_s.
Qed.

Lemma escape_cons (c : ascii) (p : string) :
  escape (String c p) = escape_char c ++ escape p.
Proof.
  unfold escape, escape_char. cbn [replace_all].
  destruct (Ascii.eqb c backslash) eqn:E1.
  - rewrite !replace_all_app. reflexivity.
  - cbn [replace_all]. destruct (Ascii.eqb c dquote) eqn:E2.
    + rewrite !replace_all_app. reflexivity.
    + cbn [replace_all]. destruct (Ascii.eqb c LF) eqn:E3; reflexivity.
Qed.

Lemma escape_each_eq (p : string) : escape p = escape_each p.
Proof.
  induction p as [|c p IH]; [reflexivity|].
  rewrite escape_cons, IH. reflexivity.
Qed.

(** X1.  The three chained [replace] calls act as one pass over the
    prompt: each character is rewritten on its own (backslash, quote and
    line feed get their two-character form, every other character stays),
    so no pass escapes again what an earlier pass produced, and escaping
    a concatenation is concatenating the escapings. *)
Theorem X1_escape_is_one_pass (p q : string) :
  escape p = escape_each p
  /\ escape (p ++ q) = escape p ++ escape q.
Proof.
  split; [apply escape_each_eq|].
  rewrite !escape_each_eq. apply escape_each_app.
Qed.

Lemma unescape_escape_each (p : string) : unescape (escape_each p) = p.
Proof.
  induction p as [|c p IH]; [reflexivity|].
  cbn [escape_each]. unfold escape_char.
  destruct (Ascii.eqb c backslash) eqn:E1.
  - apply Ascii.eqb_eq in E1. subst c.
    change ((bs ++ bs) ++ escape_each p)
      with (String backslash (String backslash (escape_each p))).
    cbn [unescape].
    change (Ascii.eqb backslash backslash) with true.
    change (Ascii.eqb backslash "n") with false.
    cbn iota. now rewrite IH.
  - destruct (Ascii.eqb c dquote) eqn:E2.
    + apply Ascii.eqb_eq in E2. subst c.
      change ((bs ++ dq) ++ escape_each p)
        with (String backslash (String dquote (escape_each p))).
      cbn [unescape].
      change (Ascii.eqb backslash backslash) with true.
      change (Ascii.eqb dquote "n") with false.
      cbn iota. now rewrite IH.
    + destruct (Ascii.eqb c LF) eqn:E3.
      * apply Ascii.eqb_eq in E3. subst c.
        change ((bs ++ "n") ++ escape_each p)
          with (String backslash (String "n" (escape_each p))).
        cbn [unescape].
        change (Ascii.eqb backslash backslash) with true.
        change (Ascii.eqb "n" "n") with true.
        cbn iota. now rewrite IH.
      * cbn [append unescape]. rewrite E1. now rewrite IH.
Qed.

(** X2.  The escaping loses nothing: the prompt can be read back from its
    escaped form, so two different prompts never have the same escaped
    form. *)
Theorem X2_escape_can_be_undone :
  (forall p, unescape (escape p) = p)
  /\ (forall p q, escape p = escape q -> p = q).
Proof.
  assert (H : forall p, unescape (escape p) = p).
  { intros p. rewrite escape_each_eq. apply unescape_escape_each. }
  split; [exact H|].
  intros p q E. rewrite <- (H p), <- (H q). now rewrite E.
Qed.

Lemma X2_escape_can_be_undone_witness :
  generatedPrompt Samples.st_quoted = generatedPrompt Samples.st_quoted.
Proof.
  apply (proj2 X2_escape_can_be_undone). reflexivity.
Defined.

Lemma length_escape_char (c : ascii) :
  String.length (escape_char c) = (if special c then 2 else 1).
Proof.
  unfold escape_char, special.
  destruct (Ascii.eqb c backslash); [reflexivity|].
  destruct (Ascii.eqb c dquote); [reflexivity|].
  destruct (Ascii.eqb c LF); reflexivity.
Qed.

Lemma length_escape (p : string) :
  String.length (escape p) = String.length p + count_special p.
Proof.
  rewrite escape_each_eq.
  induction p as [|c p IH]; [reflexivity|].
  cbn [escape_each count_special String.length].
  rewrite length_app, length_escape_char, IH.
  destruct (special c); lia.
Qed.

Lemma count_special_le (p : string) : count_special p <= String.length p.
Proof.
  induction p as [|c p IH]; cbn [count_special String.length]; [lia|].
  destruct (special c); lia.
Qed.

Lemma escape_each_plain (p : string) :
  count_special p = 0 -> escape_each p = p.
Proof.
  induction p as [|c p IH]; cbn [count_special escape_each]; [reflexivity|].
  unfold escape_char, special.
  destruct (Ascii.eqb c backslash); cbn [orb]; [lia|].
  destruct (Ascii.eqb c dquote); cbn [orb]; [lia|].
  destruct (Ascii.eqb c LF); [lia|].
  intros H. cbn [append]. now rewrite IH.
Qed.

(** X3.  Escaping adds exactly one character for each backslash, double
    quote and line feed of the prompt: the escaped prompt is at least as
    long as the prompt and at most twice as long, and it is the prompt
    itself exactly when the prompt has none of the three characters. *)
Theorem X3_escape_length (p : string) :
  String.length (escape p) = String.length p + count_special p
  /\ String.length p <= String.length (escape p) <= 2 * String.length p
  /\ (escape p = p <-> count_special p = 0).
Proof.
  pose proof (length_escape p) as HL.
  pose proof (count_special_le p) as HC.
  split; [exact HL|]. split; [lia|]. split.
  - intros E. rewrite E in HL. lia.
  - intros H. rewrite escape_each_eq. now apply escape_each_plain.
Qed.

Lemma single_line_escape_each (p : string) :
  single_line (escape_each p) = true.
Proof.
  induction p as [|c p IH]; [reflexivity|].
  cbn [escape_each]. rewrite single_line_app, IH, andb_true_r.
  unfold escape_char.
  destruct (Ascii.eqb c backslash); [reflexivity|].
  destruct (Ascii.eqb c dquote); [reflexivity|].
  destruct (Ascii.eqb c LF) eqn:E; [reflexivity|].
  cbn [single_line]. now rewrite E.
Qed.

Lemma single_line_substring (n : nat) (s : string) :
  single_line s = true -> single_line (substring 0 n s) = true.
Proof.
  intros H. rewrite (substring_0_split n s), single_line_app in H.
  now apply andb_true_iff in H as [H _].
Qed.

Lemma guarded_app_l (x s : string) (prev : bool) :
  guarded prev (x ++ s) = true -> guarded prev x = true.
Proof.
  revert prev; induction x as [|c x IH]; intros prev H; [reflexivity|].
  cbn [append guarded] in H |- *.
  apply andb_true_iff in H as [H1 H2].
  rewrite H1. cbn [andb]. now apply (IH _ H2).
Qed.

Lemma cli_command_shape (st : State) :
  generateCliCommand st
  = "claude -p " ++ dq
    ++ substring 0 500 (escape (generatedPrompt st)) ++ "..." ++ dq.
Proof.
  unfold generateCliCommand. rewrite substring_method_0.
  now rewrite !app_assoc_s.
Qed.

(** X4.  Whatever the prompt, the command is a single line (it holds no
    line feed), and between its opening and its closing quote every
    double quote follows a backslash. *)
Theorem X4_cli_command_single_line (st : State) :
  single_line (generateCliCommand st) = true
  /\ exists body,
       generateCliCommand st = "claude -p " ++ dq ++ body ++ "..." ++ dq
       /\ guarded false body = true
       /\ String.length body <= 500.
Proof.
  rewrite cli_command_shape. split.
  - rewrite !single_line_app, single_line_substring
      by (rewrite escape_each_eq; apply single_line_escape_each).
    reflexivity.
  - eexists. split; [reflexivity|]. split.
    + apply (guarded_app_l _
               (substring 500 (String.length (escape (generatedPrompt st)) - 500)
                  (escape (generatedPrompt st)))).
      rewrite <- substring_0_split. apply guarded_escape.
    + rewrite substring_0_length. lia.
Qed.

End EscapingFacts.

(* ===================================================================== *)
(** ** More on prompt assembly and on the two requests                   *)
(* ===================================================================== *)

Section PromptFacts.
Import Js App Blocks.

Lemma Ok_inj {A : Type} (a b : A) : Ok a = Ok b -> a = b.
Proof. intros H. now inversion H. Qed.

Lemma local_prompt_long (st : State) (out : string) :
  generateLocalPrompt st = Ok out -> 1832 <= String.length out.
Proof.
  rewrite generateLocalPrompt_blocks.
  destruct (jobInfo (selectedJob st)) as [info|e]; cbn [bind];
    intros H; [|discriminate H].
  apply Ok_inj in H. subst out. rewrite !length_app.
  change (String.length opening_line) with 105.
  change (String.length boilerplate) with 1727.
  lia.
Qed.

(** X5.  After a rejected request the command line offered for the
    prompt never carries the prompt: the local prompt is longer than 1800
    characters, so the command built from the new state has exactly 515
    characters and does not contain the escaped prompt. *)
Theorem X5_cli_command_after_fallback
    (post : prompt_request -> response string) (st st' : State)
    (error : axios_error)
    (Hfail : post (mkRequest (selected_req_id st) (profile st))
             = Rejected error)
    (Hdone : fst (generatePrompt post st) = Ok st') :
  generateLocalPrompt st = Ok (generatedPrompt st')
  /\ 1832 <= String.length (generatedPrompt st')
  /\ String.length (generateCliCommand st') = 515
  /\ includes (escape (generatedPrompt st')) (generateCliCommand st') = false.
Proof.
  unfold generatePrompt in Hdone. rewrite Hfail in Hdone. cbn [fst] in Hdone.
  destruct (generateLocalPrompt st) as [out|e] eqn:Hlocal; cbn [bind] in Hdone;
    [|discriminate Hdone].
  injection Hdone as <-.
  cbn [setShowPromptSection setGeneratedPrompt generatedPrompt].
  pose proof (local_prompt_long st out Hlocal) as Hlen.
  pose proof (length_escape out) as Hesc.
  split; [reflexivity|]. split; [exact Hlen|].
  rewrite cli_command_shape.
  cbn [setShowPromptSection setGeneratedPrompt generatedPrompt].
  split.
  - rewrite !length_app, substring_0_length.
    cbn [String.length dq]. lia.
  - apply long_escaped_not_included; [apply guarded_escape | lia].
Qed.

Lemma X5_cli_command_after_fallback_witness :
  String.length
    (generateCliCommand
       (setShowPromptSection true
          (setGeneratedPrompt
             (match generateLocalPrompt Samples.st_short with
              | Ok out => out
              | Throw _ => ""
              end) Samples.st_short))) = 515.
Proof.
  refine (proj1 (proj2 (proj2
    (X5_cli_command_after_fallback Samples.server_down Samples.st_short
       _ NetworkError eq_refl _)))).
  vm_compute. reflexivity.
Defined.

Lemma includes_app_r (n a b : string) :
  includes n b = true -> includes n (a ++ b) = true.
Proof.
  intros H. apply includes_inv in H as (pre & post & ->).
  rewrite <- app_assoc_s. apply includes_intro.
Qed.

Lemma includes_app_l (n a b : string) :
  includes n a = true -> includes n (a ++ b) = true.
Proof.
  intros H. apply includes_inv in H as (pre & post & ->).
  rewrite !app_assoc_s. apply includes_intro.
Qed.

Lemma target_job_block_ends (job : Job.t) (d : string) :
  exists pre,
    target_job_block job d = pre ++ ("- Description: " ++ d ++ nl) ++ "".
Proof.
  unfold target_job_block. rewrite !lines_cons.
  exists ("" ++ nl ++ "TARGET JOB:" ++ nl
          ++ ("- Title: " ++ toString (Job.title job)) ++ nl
          ++ ("- Requisition ID: " ++ toString (Job.req_id job)) ++ nl
          ++ ("- Location: " ++ toString (Job.location job)) ++ nl
          ++ ("- Pay Range: " ++ toString (Job.pay_range job)) ++ nl
          ++ ("- Technologies: " ++ toString (Job.tech_keywords job)) ++ nl).
  change (lines [""]) with "".
  rewrite !app_assoc_s. reflexivity.
Qed.

(** X6.  For a selected job whose description is absent ([undefined] or
    [null]), the prompt prints the word [undefined] followed by the
    ellipsis on the description line, while the card of the same job
    shows the ellipsis alone. *)
Theorem X6_absent_description
    (st : State) (job : Job.t)
    (Hsel : selectedJob st = Some job)
    (Habsent : Job.description job = VUndefined
               \/ Job.description job = VNull) :
  generateLocalPrompt st
  = Ok (opening_line ++ nl ++ nl ++ profile_block (profile st) ++ nl
        ++ target_job_block job "undefined..." ++ nl ++ boilerplate)
  /\ (forall out, generateLocalPrompt st = Ok out ->
                  includes ("- Description: undefined..." ++ nl) out = true)
  /\ (forall card, View.renderJobCard st job = Ok card ->
                   View.description_preview card = "...").
Proof.
  assert (Hout : generateLocalPrompt st
                 = Ok (opening_line ++ nl ++ nl
                       ++ profile_block (profile st) ++ nl
                       ++ target_job_block job "undefined..."
                       ++ nl ++ boilerplate)).
  { rewrite generateLocalPrompt_blocks, Hsel.
    rewrite jobInfo_some by (destruct Habsent as [-> | ->]; reflexivity).
    destruct Habsent as [-> | ->]; reflexivity. }
  split; [exact Hout|]. split.
  - intros out H. rewrite Hout in H. apply Ok_inj in H. subst out.
    destruct (target_job_block_ends job "undefined...") as [pre ->].
    do 5 apply includes_app_r. apply includes_app_l, includes_app_r.
    apply (includes_intro "" _ "").
  - intros card H. unfold View.renderJobCard in H.
    destruct Habsent as [Hd | Hd]; rewrite Hd in H; cbn [opt_substring bind] in H;
      destruct (View.tech_tags_of (Job.tech_keywords job)); cbn [bind] in H;
      try discriminate H; injection H as <-; reflexivity.
Qed.

Lemma X6_absent_description_witness :
  generateLocalPrompt
    (setSelectedJob (Some MoreSamples.job_no_description) initial)
  = Ok (opening_line ++ nl ++ nl ++ profile_block default_profile ++ nl
        ++ target_job_block MoreSamples.job_no_description "undefined..."
        ++ nl ++ boilerplate).
Proof.
  refine (proj1 (X6_absent_description
                   (setSelectedJob (Some MoreSamples.job_no_description) initial)
                   MoreSamples.job_no_description eq_refl _)).
  right. reflexivity.
Defined.



(** X8.  The prompt depends on the description only through its first 500
    characters: two jobs that differ only in what their descriptions hold
    beyond that point give the same prompt. *)
Theorem X8_prompt_ignores_description_tail
    (st : State) (t r l pr tk : value) (d d' : string)
    (Hsame : substring 0 500 d = substring 0 500 d') :
  generateLocalPrompt
    (setSelectedJob (Some (Job.mk t r l pr tk (VString d))) st)
  = generateLocalPrompt
      (setSelectedJob (Some (Job.mk t r l pr tk (VString d'))) st).
Proof.
  rewrite !generateLocalPrompt_blocks.
  cbn [setSelectedJob selectedJob profile].
  rewrite !jobInfo_some by reflexivity.
  cbn [Job.description rendered_description]. rewrite Hsame. reflexivity.
Qed.

Lemma X8_prompt_ignores_description_tail_witness :
  generateLocalPrompt
    (setSelectedJob
       (Some (Job.mk (VString "T") VNull VNull VNull VNull
                (VString (Samples.replicate 500 "a" ++ "b"))))
       initial)
  = generateLocalPrompt
      (setSelectedJob
         (Some (Job.mk (VString "T") VNull VNull VNull VNull
                  (VString (Samples.replicate 500 "a" ++ "cd"))))
         initial).
Proof.
  apply (X8_prompt_ignores_description_tail initial
           (VString "T") VNull VNull VNull VNull).
  vm_compute. reflexivity.
Defined.

(** X9.  When [generatePrompt] completes, the prompt section is open and
    only the prompt and that flag may have changed: the job list, the
    query, the selection, the hovered card and the profile are as
    before. *)
Theorem X9_generatePrompt_frame
    (post : prompt_request -> response string) (st st' : State)
    (Hdone : fst (generatePrompt post st) = Ok st') :
  showPromptSection st' = true
  /\ jobs st' = jobs st /\ loading st' = loading st /\ query st' = query st
  /\ selectedJob st' = selectedJob st /\ hoveredJob st' = hoveredJob st
  /\ copied st' = copied st /\ profile st' = profile st.
Proof.
  unfold generatePrompt in Hdone.
  destruct (post _) as [prompt|error]; cbn [fst] in Hdone.
  - injection Hdone as <-. repeat split.
  - destruct (generateLocalPrompt st) as [out|e]; cbn [bind] in Hdone;
      [|discriminate Hdone].
    injection Hdone as <-. repeat split.
Qed.

Lemma X9_generatePrompt_frame_witness :
  exists st',
    fst (generatePrompt MoreSamples.server_ok Samples.st_short) = Ok st'
    /\ showPromptSection st' = true
    /\ selectedJob st' = selectedJob Samples.st_short.
Proof.
  eexists. split; [reflexivity|].
  pose proof (X9_generatePrompt_frame MoreSamples.server_ok Samples.st_short
                _ eq_refl) as (H1 & _ & _ & _ & H5 & _).
  split; [exact H1 | exact H5].
Defined.




End PromptFacts.

(* ===================================================================== *)
(** ** Loading the list, the cards and the prompt panel                  *)
(* ===================================================================== *)

Section ViewFacts.
Import Js App Blocks View.

Lemma strict_eq_refl (v : value) : strict_eq v v = true.
Proof.
  destruct v as [| |b|s]; cbn [strict_eq]; try reflexivity.
  - now destruct b.
  - apply String.eqb_refl.
Qed.

(** X11.  A failed request for the list cannot be told from an empty
    answer: the state after it is the state after a server that returns no
    job, the page shows the empty listing (not the loading notice), and
    the selection, the prompt and the profile are untouched; the error
    itself only reaches the console. *)
Theorem X11_failed_fetch_looks_like_no_jobs
    (get get' : option string -> response (list Job.t))
    (searchQuery : string) (st : State) (error : axios_error)
    (Hfail : get (if (searchQuery =? "")%string then None
                  else Some searchQuery) = Rejected error)
    (Hnone : get' (if (searchQuery =? "")%string then None
                   else Some searchQuery) = Resolved []) :
  fst (fetchJobs get searchQuery st) = fst (fetchJobs get' searchQuery st)
  /\ snd (fetchJobs get searchQuery st)
     = [ConsoleError "Error fetching jobs:" error]
  /\ job_listing (fst (fetchJobs get searchQuery st)) = Ok NoJobsFound
  /\ selectedJob (fst (fetchJobs get searchQuery st)) = selectedJob st
  /\ generatedPrompt (fst (fetchJobs get searchQuery st)) = generatedPrompt st
  /\ profile (fst (fetchJobs get searchQuery st)) = profile st.
Proof.
  unfold fetchJobs. rewrite Hfail, Hnone. repeat split.
Qed.

Lemma X11_failed_fetch_looks_like_no_jobs_witness :
  fst (fetchJobs MoreSamples.jobs_down "java" Samples.st_short)
  = fst (fetchJobs MoreSamples.jobs_none "java" Samples.st_short)
  /\ job_listing (fst (fetchJobs MoreSamples.jobs_down "java" Samples.st_short))
     = Ok NoJobsFound.
Proof.
  destruct (X11_failed_fetch_looks_like_no_jobs MoreSamples.jobs_down
              MoreSamples.jobs_none "java" Samples.st_short (HttpError 500)
              eq_refl eq_refl) as (H1 & _ & H3 & _).
  split; [exact H1 | exact H3].
Defined.

Lemma fetchJobs_two_steps
    (get : option string -> response (list Job.t))
    (searchQuery : string) (st : State) :
  fetchJobs get searchQuery st
  = Fetching.fetch_resume (get (Fetching.request_param searchQuery))
      (Fetching.fetch_begin st).
Proof.
  unfold fetchJobs, Fetching.fetch_resume, Fetching.fetch_begin,
    Fetching.request_param.
  destruct (get _); reflexivity.
Qed.

(** X12.  [fetchJobs] suspends once, at its [await], and nothing orders
    or cancels the requests.  When two calls overlap (both have begun,
    then the answers arrive), the list on the page is the list of the
    answer that arrives last, whichever request was made last: a late
    answer [older] to the first query replaces the list of the answer
    [newer] to the second.  The loading notice goes off at the first
    answer, while the other request is still pending.  A call that does
    not overlap with another is its two steps run one after the
    other. *)
Theorem X12_last_answer_wins
    (older newer : response (list Job.t)) (st : State) :
  jobs (fst (Fetching.fetch_resume older
               (fst (Fetching.fetch_resume newer
                       (Fetching.fetch_begin (Fetching.fetch_begin st))))))
  = Fetching.answered_jobs older
  /\ jobs (fst (Fetching.fetch_resume newer
                  (fst (Fetching.fetch_resume older
                          (Fetching.fetch_begin (Fetching.fetch_begin st))))))
     = Fetching.answered_jobs newer
  /\ loading (Fetching.fetch_begin (Fetching.fetch_begin st)) = true
  /\ loading (fst (Fetching.fetch_resume newer
                     (Fetching.fetch_begin (Fetching.fetch_begin st))))
     = false
  /\ forall get searchQuery,
       fetchJobs get searchQuery st
       = Fetching.fetch_resume (get (Fetching.request_param searchQuery))
           (Fetching.fetch_begin st).
Proof.
  split; [now destruct older, newer|].
  split; [now destruct older, newer|].
  split; [reflexivity|].
  split; [now destruct newer|].
  intros get searchQuery. apply fetchJobs_two_steps.
Qed.

(** X13.  Clicking a card that is not drawn as selected selects its job
    and the card is then drawn as selected; clicking it once more leaves
    nothing selected (the job that was selected before the first click is
    not restored). *)
Theorem X13_click_selects_then_deselects
    (st : State) (job : Job.t) (Hnot : is_selected st job = false) :
  selectedJob (click_card job st) = Some job
  /\ is_selected (click_card job st) job = true
  /\ selectedJob (click_card job (click_card job st)) = None.
Proof.
  assert (H1 : click_card job st = setSelectedJob (Some job) st).
  { unfold click_card. now rewrite Hnot. }
  assert (H2 : is_selected (click_card job st) job = true).
  { rewrite H1. unfold is_selected, selected_req_id.
    cbn [setSelectedJob selectedJob]. apply strict_eq_refl. }
  split; [now rewrite H1|]. split; [exact H2|].
  unfold click_card at 1. now rewrite H2.
Qed.

Lemma X13_click_selects_then_deselects_witness :
  selectedJob (click_card MoreSamples.job_no_description Samples.st_short)
  = Some MoreSamples.job_no_description
  /\ selectedJob
       (click_card MoreSamples.job_no_description
          (click_card MoreSamples.job_no_description Samples.st_short))
     = None.
Proof.
  destruct (X13_click_selects_then_deselects Samples.st_short
              MoreSamples.job_no_description eq_refl) as (H1 & _ & H3).
  split; [exact H1 | exact H3].
Defined.

(** X14.  A job that came without requisition id cannot be selected
    while nothing is selected: its card is already drawn as selected,
    with the button that generates a prompt, although the button of the
    panel is disabled, and a click on it leaves the selection empty. *)
Theorem X14_job_without_id_cannot_be_selected
    (st : State) (job : Job.t)
    (Hnone : selectedJob st = None)
    (Hid : Job.req_id job = VUndefined) :
  is_selected st job = true
  /\ selectedJob (click_card job st) = None
  /\ generate_disabled st = true
  /\ (forall card, renderJobCard st job = Ok card ->
                   isSelected card = true /\ generate_button card = true).
Proof.
  assert (H : is_selected st job = true).
  { unfold is_selected, selected_req_id. now rewrite Hnone, Hid. }
  split; [exact H|]. split; [|split].
  - unfold click_card. now rewrite H.
  - unfold generate_disabled. now rewrite Hnone.
  - intros card Hcard. unfold renderJobCard in Hcard.
    destruct (opt_substring (Job.description job) 0 200); cbn [bind] in Hcard;
      [|discriminate Hcard].
    destruct (tech_tags_of (Job.tech_keywords job)); cbn [bind] in Hcard;
      [|discriminate Hcard].
    apply Ok_inj in Hcard. subst card.
    cbn [isSelected generate_button]. now rewrite H.
Qed.

Lemma X14_job_without_id_cannot_be_selected_witness :
  is_selected MoreSamples.st_listed MoreSamples.job_no_id = true
  /\ selectedJob (click_card MoreSamples.job_no_id MoreSamples.st_listed)
     = None.
Proof.
  destruct (X14_job_without_id_cannot_be_selected MoreSamples.st_listed
              MoreSamples.job_no_id eq_refl eq_refl) as (H1 & H2 & _).
  split; [exact H1 | exact H2].
Defined.

(** X15.  Selection goes by requisition id, not by posting: when the
    list holds another posting with the same requisition id as the
    selected one, its card is drawn as selected too and a click on it
    clears the selection instead of moving it. *)
Theorem X15_same_id_click_clears
    (st : State) (selected job : Job.t)
    (Hsel : selectedJob st = Some selected)
    (Hid : strict_eq (Job.req_id selected) (Job.req_id job) = true) :
  is_selected st job = true
  /\ selectedJob (click_card job st) = None.
Proof.
  assert (H : is_selected st job = true).
  { unfold is_selected, selected_req_id. now rewrite Hsel. }
  split; [exact H|]. unfold click_card. now rewrite H.
Qed.

Lemma X15_same_id_click_clears_witness :
  selectedJob
    (click_card
       (Job.mk (VString "Copy") (VString "2025-0001") VNull VNull VNull VNull)
       Samples.st_short)
  = None.
Proof.
  exact (proj2 (X15_same_id_click_clears Samples.st_short Samples.job_short
                  (Job.mk (VString "Copy") (VString "2025-0001")
                     VNull VNull VNull VNull)
                  eq_refl eq_refl)).
Defined.

End ViewFacts.

Section CardFacts.
Import Js App Blocks View Escaping.

Lemma length_split (sep : ascii) (s : string) :
  List.length (split sep s) = S (count_char sep s).
Proof.
  induction s as [|c s IH]; cbn [split count_char]; [reflexivity|].
  destruct (Ascii.eqb c sep); cbn [List.length]; [now rewrite IH|].
  destruct (split sep s) as [|w ws]; [discriminate IH | exact IH].
Qed.

Lemma split_no_sep (sep : ascii) (s : string) :
  Forall (fun w => count_char sep w = 0) (split sep s).
Proof.
  induction s as [|c s IH]; cbn [split].
  - constructor; [reflexivity | constructor].
  - destruct (Ascii.eqb c sep) eqn:E.
    + constructor; [reflexivity | exact IH].
    + destruct (split sep s) as [|w ws].
      * constructor; [|constructor]. cbn [count_char]. now rewrite E.
      * inversion IH as [|? ? Hw Hws]; subst.
        constructor; [|exact Hws]. cbn [count_char]. now rewrite E, Hw.
Qed.

Lemma split_plain (sep : ascii) (k : string) :
  count_char sep k = 0 -> split sep k = [k].
Proof.
  induction k as [|c k IH]; cbn [count_char split]; [reflexivity|].
  destruct (Ascii.eqb c sep); [discriminate|].
  intros H. now rewrite IH.
Qed.

Lemma split_app_sep (sep : ascii) (k s : string) :
  count_char sep k = 0 ->
  split sep (k ++ String sep s) = k :: split sep s.
Proof.
  induction k as [|c k IH]; cbn [count_char append split].
  - now rewrite Ascii.eqb_refl.
  - destruct (Ascii.eqb c sep); [discriminate|].
    intros H. now rewrite IH.
Qed.

(** Splitting what was joined gives the parts back. *)
Lemma split_concat (sep : ascii) (ks : list string) :
  ks <> [] ->
  Forall (fun k => count_char sep k = 0) ks ->
  split sep (String.concat (String sep EmptyString) ks) = ks.
Proof.
  induction ks as [|k ks IH]; intros Hne Hks; [congruence|].
  inversion Hks as [|? ? Hk Hks']; subst.
  destruct ks as [|k2 ks].
  - cbn [String.concat]. now apply split_plain.
  - change (String.concat (String sep "") (k :: k2 :: ks))
      with (k ++ String sep (String.concat (String sep "") (k2 :: ks))).
    rewrite split_app_sep by exact Hk.
    now rewrite IH.
Qed.

Lemma trim_end_idem (s : string) : trim_end (trim_end s) = trim_end s.
Proof.
  induction s as [|c s IH]; [reflexivity|].
  cbn [trim_end]. destruct (trim_end s) as [|d t] eqn:E.
  - destruct (is_js_space c) eqn:Ec; [reflexivity|].
    cbn [trim_end]. now rewrite Ec.
  - cbn [trim_end]. cbn [trim_end] in IH. now rewrite IH.
Qed.

Lemma trim_start_head (s : string) :
  trim_start s = ""
  \/ exists c s', trim_start s = String c s' /\ is_js_space c = false.
Proof.
  induction s as [|c s IH]; [now left|].
  cbn [trim_start]. destruct (is_js_space c) eqn:E; [exact IH|].
  right. now exists c, s.
Qed.

Lemma trim_end_keeps_head (c : ascii) (s : string) :
  is_js_space c = false ->
  exists t, trim_end (String c s) = String c t.
Proof.
  intros Hc. cbn [trim_end]. destruct (trim_end s) as [|d t].
  - rewrite Hc. now exists "".
  - now exists (String d t).
Qed.

Lemma trim_idem (s : string) : trim (trim s) = trim s.
Proof.
  unfold trim.
  destruct (trim_start_head s) as [E|(c & s' & E & Hc)]; rewrite E.
  - reflexivity.
  - destruct (trim_end_keeps_head c s' Hc) as [t Ht].
    rewrite Ht. cbn [trim_start]. rewrite Hc, <- Ht.
    apply trim_end_idem.
Qed.

Lemma count_char_trim_start (c : ascii) (s : string) :
  count_char c (trim_start s) <= count_char c s.
Proof.
  induction s as [|a s IH]; cbn [trim_start]; [lia|].
  destruct (is_js_space a); [cbn [count_char]; lia | lia].
Qed.

Lemma count_char_trim_end (c : ascii) (s : string) :
  count_char c (trim_end s) <= count_char c s.
Proof.
  induction s as [|a s IH]; cbn [trim_end]; [lia|].
  destruct (trim_end s) as [|d t].
  - destruct (is_js_space a); cbn [count_char] in *; lia.
  - cbn [count_char] in *. lia.
Qed.

Lemma count_char_trim (c : ascii) (s : string) :
  count_char c (trim s) <= count_char c s.
Proof.
  unfold trim.
  pose proof (count_char_trim_end c (trim_start s)).
  pose proof (count_char_trim_start c s). lia.
Qed.

(** X16.  A card shows at most six technology tags: as many as the
    keyword text has comma-separated parts, up to six, in their order;
    every tag is free of commas and carries no white space at either
    end. *)
Theorem X16_at_most_six_trimmed_tags (keywords : string) :
  List.length (tags_of keywords)
  = Nat.min 6 (S (count_char "," keywords))
  /\ Forall (fun t => trim t = t /\ count_char "," t = 0) (tags_of keywords)
  /\ tags_of keywords = firstn 6 (map trim (split "," keywords)).
Proof.
  unfold tags_of. split; [|split].
  - now rewrite length_map, length_firstn, length_split.
  - apply Forall_map.
    pose proof (split_no_sep "," keywords) as H.
    rewrite <- (firstn_skipn 6 (split "," keywords)) in H.
    apply Forall_app in H as [H _].
    eapply Forall_impl; [|exact H].
    intros w Hw. split; [apply trim_idem|].
    pose proof (count_char_trim "," w). cbv beta in Hw. lia.
  - now rewrite firstn_map.
Qed.

(** X17.  Keywords joined by commas come back as the tags of the card:
    when no keyword holds a comma or outer white space, the card shows
    the first six keywords, in order. *)
Theorem X17_tags_of_joined_keywords
    (ks : list string)
    (Hne : String.concat "," ks <> "")
    (Hks : Forall (fun k => count_char "," k = 0 /\ trim k = k) ks) :
  tech_tags_of (VString (String.concat "," ks)) = Ok (Some (firstn 6 ks)).
Proof.
  unfold tech_tags_of, truthy.
  apply String.eqb_neq in Hne. rewrite Hne. cbn [negb].
  do 2 f_equal. unfold tags_of.
  assert (Hks' : ks <> []) by (intros ->; now apply String.eqb_neq in Hne).
  rewrite split_concat.
  - rewrite <- firstn_map. f_equal.
    clear Hne Hks'. induction Hks as [|k ks [_ Hk] _ IH]; [reflexivity|].
    cbn [map]. now rewrite Hk, IH.
  - exact Hks'.
  - eapply Forall_impl; [|exact Hks]. now intros k [Hk _].
Qed.

Lemma X17_tags_of_joined_keywords_witness :
  tech_tags_of
    (VString (String.concat ","
                ["java"; "spring boot"; "aws"; "sql"; "go"; "rust"; "c"]))
  = Ok (Some ["java"; "spring boot"; "aws"; "sql"; "go"; "rust"]).
Proof.
  apply (X17_tags_of_joined_keywords
           ["java"; "spring boot"; "aws"; "sql"; "go"; "rust"; "c"]).
  - discriminate.
  - repeat constructor.
Defined.

(** The tags of a real-looking keyword text. *)
Example tags_sample :
  tags_of " java , sql,,aws " = ["java"; "sql"; ""; "aws"].
Proof. reflexivity. Qed.

Lemma renderJobCard_ok (st : State) (job : Job.t) :
  Job.well_typed job = true ->
  exists card,
    renderJobCard st job = Ok card
    /\ card_title card = render_child (Job.title job)
    /\ isSelected card = is_selected st job.
Proof.
  unfold Job.well_typed. rewrite !andb_true_iff.
  intros (((((_ & _) & _) & _) & Hk) & Hd).
  unfold renderJobCard.
  destruct (Job.description job) as [| |b|d]; try discriminate Hd;
    cbn [opt_substring bind];
    (destruct (Job.tech_keywords job) as [| |b'|k]; try discriminate Hk;
     unfold tech_tags_of; cbn [truthy];
     [ | | destruct (negb (k =? "")%string) ];
     cbn [bind]; eexists; repeat split).
Qed.

Lemma render_cards_ok (st : State) (js : list Job.t) :
  forallb Job.well_typed js = true ->
  exists cards,
    render_cards st js = Ok cards
    /\ List.length cards = List.length js
    /\ map card_title cards = map (fun j => render_child (Job.title j)) js.
Proof.
  induction js as [|job js IH]; cbn [forallb]; intros H.
  - exists []. repeat split.
  - apply andb_true_iff in H as [Hjob Hjs].
    destruct (renderJobCard_ok st job Hjob) as (card & Hc & Ht & _).
    destruct (IH Hjs) as (cards & Hcs & Hl & Hm).
    exists (card :: cards). cbn [render_cards].
    rewrite Hc, Hcs. cbn [bind List.length map].
    now rewrite Hl, Ht, Hm.
Qed.

(** X18.  When the server answers with a non-empty list of well-typed
    job records, the page shows the grid with one card for each record,
    in the order of the answer, each under the title of its record. *)
Theorem X18_grid_has_a_card_per_job
    (get : option string -> response (list Job.t))
    (searchQuery : string) (st : State) (data : list Job.t)
    (Hok : get (if (searchQuery =? "")%string then None
                else Some searchQuery) = Resolved data)
    (Htyped : forallb Job.well_typed data = true)
    (Hne : data <> []) :
  exists cards,
    job_listing (fst (fetchJobs get searchQuery st)) = Ok (JobGrid cards)
    /\ List.length cards = List.length data
    /\ map card_title cards = map (fun j => render_child (Job.title j)) data.
Proof.
  unfold fetchJobs. rewrite Hok. cbn [fst].
  destruct (render_cards_ok
              (setLoading false (setJobs data (setLoading true st)))
              data Htyped) as (cards & Hc & Hl & Hm).
  exists cards. split; [|split; assumption].
  unfold job_listing. cbn [setLoading setJobs loading jobs].
  cbn [setLoading setJobs loading jobs] in Hc.
  destruct data as [|j data]; [congruence|].
  cbn [List.length Nat.eqb]. now rewrite Hc.
Qed.

Lemma X18_grid_has_a_card_per_job_witness :
  exists cards,
    job_listing (fst (fetchJobs MoreSamples.jobs_two "" initial))
    = Ok (JobGrid cards)
    /\ List.length cards = 2.
Proof.
  destruct (X18_grid_has_a_card_per_job MoreSamples.jobs_two "" initial
              [Samples.job_short; MoreSamples.job_no_description]
              eq_refl eq_refl) as (cards & H1 & H2 & _).
  - discriminate.
  - exists cards. split; [exact H1 | exact H2].
Defined.

Lemma throw_is_type_error {A : Type} (e : exn) :
  @Throw A e = Throw TypeError.
Proof. now destruct e. Qed.

Lemma render_cards_throws (st : State) (js : list Job.t) (job : Job.t) :
  In job js ->
  renderJobCard st job = Throw TypeError ->
  render_cards st js = Throw TypeError.
Proof.
  induction js as [|j js IH]; intros Hin Hthrow; [destruct Hin|].
  cbn [render_cards]. destruct Hin as [->|Hin].
  - now rewrite Hthrow.
  - destruct (renderJobCard st j) as [card|e]; cbn [bind];
      [|apply throw_is_type_error].
    now rewrite (IH Hin Hthrow).
Qed.

(** X19.  One ill-typed record spoils the whole listing: if the loaded
    list holds a job whose description is a boolean, or whose keywords
    are [true], rendering the listing throws a [TypeError] and no card at
    all is produced. *)
Theorem X19_ill_typed_job_breaks_listing
    (st : State) (job : Job.t)
    (Hloaded : loading st = false)
    (Hin : In job (jobs st))
    (Hbad : (exists b, Job.description job = VBool b)
            \/ Job.tech_keywords job = VBool true) :
  job_listing st = Throw TypeError.
Proof.
  assert (Hcard : renderJobCard st job = Throw TypeError).
  { unfold renderJobCard. destruct Hbad as [[b Hb]|Hk].
    - now rewrite Hb.
    - rewrite Hk.
      destruct (opt_substring (Job.description job) 0 200); cbn [bind];
        [reflexivity | apply throw_is_type_error]. }
  unfold job_listing. rewrite Hloaded.
  destruct (jobs st) as [|j js] eqn:E; [destruct Hin|].
  cbn [List.length Nat.eqb].
  now rewrite (render_cards_throws st (j :: js) job Hin Hcard).
Qed.

Lemma X19_ill_typed_job_breaks_listing_witness :
  job_listing MoreSamples.st_listed_ill_typed = Throw TypeError.
Proof.
  apply (X19_ill_typed_job_breaks_listing MoreSamples.st_listed_ill_typed
           Samples.job_ill_typed).
  - reflexivity.
  - right. now left.
  - left. now exists true.
Defined.

(** X20.  When [generatePrompt] completes, the panel shows the prompt now
    in the state, except in one case: the server answered with an empty
    prompt, and then the panel is open but shows no prompt. *)
Theorem X20_prompt_shown_unless_server_sent_nothing
    (post : prompt_request -> response string) (st st' : State)
    (Hdone : fst (generatePrompt post st) = Ok st') :
  (prompt_output st' = None
   <-> post (mkRequest (selected_req_id st) (profile st)) = Resolved "")
  /\ (prompt_output st' <> None ->
      prompt_output st' = Some (generatedPrompt st'))
  /\ showPromptSection st' = true.
Proof.
  unfold generatePrompt in Hdone.
  destruct (post (mkRequest (selected_req_id st) (profile st)))
    as [prompt|error]; cbn [fst] in Hdone.
  - apply Ok_inj in Hdone. subst st'. unfold prompt_output.
    cbn [setShowPromptSection setGeneratedPrompt showPromptSection
         generatedPrompt andb].
    destruct (String.eqb_spec prompt "") as [->|Hne]; cbn [negb].
    + repeat split; congruence.
    + repeat split; congruence.
  - destruct (generateLocalPrompt st) as [out|e] eqn:Hlocal; cbn [bind] in Hdone;
      [|discriminate Hdone].
    apply Ok_inj in Hdone. subst st'. unfold prompt_output.
    cbn [setShowPromptSection setGeneratedPrompt showPromptSection
         generatedPrompt andb].
    pose proof (local_prompt_long st out Hlocal) as Hlen.
    destruct (String.eqb_spec out "") as [->|Hne]; cbn [negb].
    + cbn [String.length] in Hlen. lia.
    + repeat split; try congruence; intros H; discriminate H.
Qed.

Lemma X20_prompt_shown_unless_server_sent_nothing_witness :
  exists st',
    fst (generatePrompt MoreSamples.server_empty Samples.st_short) = Ok st'
    /\ prompt_output st' = None
    /\ showPromptSection st' = true.
Proof.
  eexists. split; [reflexivity|].
  destruct (X20_prompt_shown_unless_server_sent_nothing
              MoreSamples.server_empty Samples.st_short _ eq_refl)
    as (H1 & _ & H3).
  split; [apply H1; reflexivity | exact H3].
Defined.

End CardFacts.

Section HoverFacts.
Import Js App View.

(** X21.  While the mouse is on a card, exactly the cards with the same
    requisition id are drawn as hovered; once it has left, the cards drawn
    as hovered are those of the jobs whose requisition id is [null]. *)
Theorem X21_hovered_cards (st : State) (job other : Job.t) :
  is_hovered (mouse_enter job st) other
  = strict_eq (Job.req_id job) (Job.req_id other)
  /\ is_hovered (mouse_enter job st) job = true
  /\ (is_hovered (mouse_leave (mouse_enter job st)) other = true
      <-> Job.req_id other = VNull).
Proof.
  split; [reflexivity|]. split; [apply strict_eq_refl|].
  unfold is_hovered, mouse_leave, mouse_enter.
  cbn [setHoveredJob hoveredJob].
  destruct (Job.req_id other) as [| |b|s]; cbn [strict_eq];
    split; intros H; try discriminate H; reflexivity.
Qed.

End HoverFacts.
